(** * Route optimizer for pharmaceutical deliveries

    A shallow embedding of [Prototyping/route-optimizer/route_planner.py]
    (class [PharmaceuticalRouteOptimizer]) and the properties of its
    distance computation, priority adjustment, candidate scoring, greedy
    sequencing loop and report aggregation.

    Numbers.  The code is transcribed twice.  In the first transcription
    Python [float] values are idealised as real numbers ([R]) and Python
    [int] values are integers ([Z]), embedded in [R] by [IZR] where the code
    mixes them; rounding error, infinities, NaN and the exceptions of float
    arithmetic are outside it.  It carries the properties that are about
    the formulas, the order of the steps, the clock and the store.  The
    second transcription, module [B64], takes a float to be an IEEE 754
    binary64 value and keeps the exceptions; it carries the properties
    about what a call returns or raises.  [datetime] values are integers
    counting microseconds; [datetime.now()] reads a wall clock that the
    model passes explicitly. *)

From Stdlib Require Import Floats.
From Stdlib Require Import Reals Lra Lia ZArith List String Bool.
From Stdlib Require Import Permutation Sorted.
Import ListNotations.

Local Open Scope R_scope.

(** ** Numeric helpers of the Python runtime *)

(** Decisions on reals as booleans, for the [if] tests of the code. *)
Definition Rltb (x y : R) : bool := if Rlt_dec x y then true else false.
Definition Rleb (x y : R) : bool := if Rle_dec x y then true else false.

(** [math.radians]. *)
Definition radians (deg : R) : R := deg * PI / 180.

(** [math.atan2(y, x)], by quadrant. *)
Definition atan2 (y x : R) : R :=
  if Rltb 0 x then atan (y / x)
  else if Rltb x 0 then
         if Rleb 0 y then atan (y / x) + PI else atan (y / x) - PI
  else if Rltb 0 y then PI / 2
  else if Rltb y 0 then - PI / 2
  else 0.

(** ** GeoDistance *)

(** [calculate_distance]: the haversine formula with radius 6371 km, in
    exact arithmetic.  Over floats the rounding of [a] can take it outside
    [0, 1], where [math.sqrt] raises [ValueError], and a NaN coordinate
    gives NaN: see [B64.calculate_distance]. *)
Definition calculate_distance (lat1 lon1 lat2 lon2 : R) : R :=
  let R_earth := 6371 in
  let lat1 := radians lat1 in
  let lon1 := radians lon1 in
  let lat2 := radians lat2 in
  let lon2 := radians lon2 in
  let dlat := lat2 - lat1 in
  let dlon := lon2 - lon1 in
  let a := sin (dlat / 2) ^ 2 + cos lat1 * cos lat2 * sin (dlon / 2) ^ 2 in
  let c := 2 * atan2 (sqrt a) (sqrt (1 - a)) in
  R_earth * c.

(** ** Python runtime pieces used by the optimizer *)

(** [min(a, b)]: the first argument unless the second is strictly smaller. *)
Definition py_min (a b : R) : R := if Rltb b a then b else a.

(** [int(x)] on a float: truncation towards zero. *)
Definition py_int (x : R) : Z :=
  if Rleb 0 x then Int_part x else (- Int_part (- x))%Z.

(** [round(x)] on a float: nearest integer, halves to the even neighbour. *)
Definition py_round (x : R) : Z :=
  let f := Int_part x in
  let d := x - IZR f in
  if Rltb d (1 / 2) then f
  else if Rltb (1 / 2) d then (f + 1)%Z
  else if Z.even f then f else (f + 1)%Z.

(** [round(x, 2)]. *)
Definition py_round2 (x : R) : R := IZR (py_round (x * 100)) / 100.

(** A [datetime] is a count of microseconds; a [timedelta] likewise. *)
Definition datetime := Z.
Definition timedelta_hours (h : Z) : Z := (h * 3600000000)%Z.

(** [timedelta.total_seconds()]. *)
Definition total_seconds (d : Z) : R := IZR d / 1000000.

(** Values held by the weather dictionary. *)
Inductive pyval :=
| VStr (s : string)
| VNum (x : R).

(** A [dict] with string keys, as the list of its items; [dict_get] is
    [d.get(key)] and [dict_get_default] is [d.get(key, default)]. *)
Definition Dict (V : Type) := list (string * V).

Fixpoint dict_get {V : Type} (d : Dict V) (key : string) : option V :=
  match d with
  | [] => None
  | (k, v) :: rest => if String.eqb k key then Some v else dict_get rest key
  end.

Definition dict_get_default {V : Type} (d : Dict V) (key : string) (default : V) : V :=
  match dict_get d key with
  | Some v => v
  | None => default
  end.

(** [weather.get('condition') == s]. *)
Definition condition_is (weather : Dict pyval) (s : string) : bool :=
  match dict_get weather "condition" with
  | Some (VStr c) => String.eqb c s
  | _ => false
  end.

(** ** Data model *)

(** The [Pharmacy] dataclass.  The [priority] field is declared [int]; after
    priority adjustment it holds [min(10, priority * multiplier)], which is a
    [float] product, so the field ranges over [R]. *)
Record Pharmacy := mkPharmacy {
  id : string;
  name : string;
  latitude : R;
  longitude : R;
  priority : R;
  delivery_window : datetime * datetime
}.

(** The [RouteSegment] dataclass. *)
Record RouteSegment := mkRouteSegment {
  start_pharmacy : Pharmacy;
  end_pharmacy : Pharmacy;
  distance_km : R;
  estimated_duration_min : Z;
  road_conditions : string;
  weather_risk : R
}.

(** The dictionary returned by [generate_route_report]; [route_id] and
    [generated_at] keep the clock reading they are formatted from. *)
Record RouteReport := mkRouteReport {
  route_id : datetime;
  total_distance_km : R;
  total_duration_min : Z;
  pharmacy_count : Z;
  segments : list RouteSegment;
  estimated_fuel_consumption : R;
  generated_at : datetime
}.

(** The dataclass [__eq__]: field-wise equality. *)
Definition Pharmacy_eq_dec (p q : Pharmacy) : {p = q} + {p <> q}.
Proof.
  decide equality.
  - decide equality; apply Z.eq_dec.
  - apply Req_dec_T.
  - apply Req_dec_T.
  - apply Req_dec_T.
  - apply string_dec.
  - apply string_dec.
Defined.

(** ** Effects: the wall clock and exceptions *)

(** An exception, by the name of its class. *)
Inductive exn := Exn (cls : string).

(** What a call does: it returns, it raises, or the model's loop bound is
    exhausted. *)
Inductive outcome (A : Type) :=
| Returned (a : A)
| Raised (e : exn)
| OutOfFuel.
Arguments Returned {A} a.
Arguments Raised {A} e.
Arguments OutOfFuel {A}.

(** The wall clock: the [k]-th call of [datetime.now()] in the process
    returns [clock k]. *)
Definition Clock := nat -> datetime.

(** A computation reads the clock and threads the number of readings made
    so far. *)
Definition M (A : Type) := Clock -> nat -> outcome (A * nat).

Definition ret {A : Type} (a : A) : M A := fun _ t => Returned (a, t).

Definition bind {A B : Type} (m : M A) (k : A -> M B) : M B :=
  fun clock t =>
    match m clock t with
    | Returned (a, t') => k a clock t'
    | Raised e => Raised e
    | OutOfFuel => OutOfFuel
    end.

Definition raise {A : Type} (e : exn) : M A := fun _ _ => Raised e.

Definition out_of_fuel {A : Type} : M A := fun _ _ => OutOfFuel.

(** [datetime.now()]. *)
Definition now : M datetime := fun clock t => Returned (clock t, S t).

Notation "x <- m ;; k" := (bind m (fun x => k))
  (at level 61, m at next level, right associativity).

(** [lst[-1]]. *)
Fixpoint list_last (l : list Pharmacy) : M Pharmacy :=
  match l with
  | [] => raise (Exn "IndexError")
  | [x] => ret x
  | _ :: rest => list_last rest
  end.

(** [lst.remove(x)]: drops the first element equal to [x]. *)
Fixpoint list_remove (x : Pharmacy) (l : list Pharmacy) : M (list Pharmacy) :=
  match l with
  | [] => raise (Exn "ValueError")
  | y :: rest =>
      if Pharmacy_eq_dec y x then ret rest
      else rest' <- list_remove x rest ;; ret (y :: rest')
  end.

(** ** PriorityAdjuster *)

Definition emergency_zones : Dict R :=
  [("pharmacy_001"%string, 2.5); ("pharmacy_005"%string, 1.8)].

(** [_detect_emergency_situation]. *)
Definition _detect_emergency_situation (pharmacy : Pharmacy) : R :=
  dict_get_default emergency_zones (id pharmacy) 1.0.

(** The body of the loop of [_apply_emergency_priority]: the boosted copy. *)
Definition boosted_pharmacy (pharmacy : Pharmacy) : Pharmacy :=
  let emergency_multiplier := _detect_emergency_situation pharmacy in
  {| id := id pharmacy;
     name := name pharmacy;
     latitude := latitude pharmacy;
     longitude := longitude pharmacy;
     priority := py_min 10 (priority pharmacy * emergency_multiplier);
     delivery_window := delivery_window pharmacy |}.

(** [sorted(l, key=key, reverse=True)].  Python's sort is stable, also
    under [reverse=True]; the result of a stable sort is determined by the
    keys, and is computed here by insertion from the right: an element goes
    before the first one whose key is not larger. *)
Section PySorted.
Context {A : Type} (key : A -> R).

Fixpoint insert_desc (x : A) (l : list A) : list A :=
  match l with
  | [] => [x]
  | y :: rest =>
      if Rltb (key x) (key y) then y :: insert_desc x rest
      else x :: y :: rest
  end.

Definition py_sorted_desc (l : list A) : list A :=
  fold_right insert_desc [] l.

(** Descending order of the keys. *)
Definition key_ge (a b : A) : Prop := key b <= key a.

(** The elements of key [k], used to state stability: those of any one
    key keep their input order. *)
Definition has_key (k : R) (x : A) : bool :=
  if Req_dec_T (key x) k then true else false.
End PySorted.

(** [_apply_emergency_priority]. *)
Definition _apply_emergency_priority (pharmacies : list Pharmacy) : list Pharmacy :=
  let emergency_boosted := map boosted_pharmacy pharmacies in
  py_sorted_desc priority emergency_boosted.

(** ** CandidateScorer *)

(** [_calculate_weather_impact]. *)
Definition _calculate_weather_impact (weather : Dict pyval) (pharmacy : Pharmacy) : R :=
  let base_risk := 0.1 in
  let base_risk :=
    if Rltb 52.5 (latitude pharmacy) then base_risk + 0.3 else base_risk in
  let base_risk :=
    if condition_is weather "snow" then base_risk + 0.4
    else if condition_is weather "rain" then base_risk + 0.2
    else base_risk in
  py_min base_risk 1.0.

(** The branches of [_calculate_time_urgency] once the clock has been read. *)
Definition urgency_at (now_ : datetime) (pharmacy : Pharmacy) : R :=
  let '(window_start, window_end) := delivery_window pharmacy in
  let time_until_start := total_seconds (window_start - now_) / 3600 in
  if Rleb time_until_start 2 then 30
  else if Rleb time_until_start 4 then 15
  else 5.

(** [_calculate_time_urgency]: reads the wall clock at every call. *)
Definition _calculate_time_urgency (pharmacy : Pharmacy) : M R :=
  now_ <- now ;;
  ret (urgency_at now_ pharmacy).

(** [_calculate_pharmacy_score], in exact arithmetic.  Over floats the call
    can raise through [calculate_distance], the score can be NaN or
    infinite, and the sums round: see [B64._calculate_pharmacy_score]. *)
Definition _calculate_pharmacy_score (current target : Pharmacy)
    (weather : Dict pyval) : M R :=
  let distance :=
    calculate_distance (latitude current) (longitude current)
                       (latitude target) (longitude target) in
  let distance_score := 100 / (distance + 1) in
  let priority_score := priority target * 10 in
  let weather_impact := _calculate_weather_impact weather target in
  let weather_score := 50 * (1 - weather_impact) in
  time_urgency <- _calculate_time_urgency target ;;
  let total_score := distance_score + priority_score + weather_score + time_urgency in
  ret total_score.

(** ** RouteBuilder *)

(** The running best score of [_select_next_pharmacy] starts at
    [float('-inf')]. *)
Inductive xreal :=
| NegInf
| Fin (r : R).

(** [score > best_score]. *)
Definition score_gt (score : R) (best_score : xreal) : bool :=
  match best_score with
  | NegInf => true
  | Fin b => Rltb b score
  end.

(** The [for] loop of [_select_next_pharmacy]. *)
Fixpoint select_loop (current : Pharmacy) (candidates : list Pharmacy)
    (weather : Dict pyval) (best_score : xreal) (best_pharmacy : option Pharmacy)
    : M (option Pharmacy) :=
  match candidates with
  | [] => ret best_pharmacy
  | pharmacy :: rest =>
      score <- _calculate_pharmacy_score current pharmacy weather ;;
      if score_gt score best_score
      then select_loop current rest weather (Fin score) (Some pharmacy)
      else select_loop current rest weather best_score best_pharmacy
  end.

(** [_select_next_pharmacy]. *)
Definition _select_next_pharmacy (current : Pharmacy) (candidates : list Pharmacy)
    (weather : Dict pyval) : M (option Pharmacy) :=
  select_loop current candidates weather NegInf None.

(** The [while unvisited] loop of [optimize_delivery_route]; [fuel] bounds
    the number of iterations. *)
Fixpoint greedy_loop (fuel : nat) (route unvisited : list Pharmacy)
    (current_weather : Dict pyval) : M (list Pharmacy) :=
  match unvisited with
  | [] => ret route
  | _ :: _ =>
      match fuel with
      | O => out_of_fuel
      | S fuel' =>
          current_location <- list_last route ;;
          next_pharmacy <- _select_next_pharmacy current_location unvisited
                             current_weather ;;
          match next_pharmacy with
          | Some next_ =>
              unvisited' <- list_remove next_ unvisited ;;
              greedy_loop fuel' (route ++ [next_]) unvisited' current_weather
          | None => ret route
          end
      end
  end.

(** The depot built by [optimize_delivery_route] from two clock readings. *)
Definition make_depot (now0 now1 : datetime) : Pharmacy :=
  {| id := "depot";
     name := "Central Distribution Center";
     latitude := 52.0375;
     longitude := 106.6522;
     priority := 1;
     delivery_window := (now0, (now1 + timedelta_hours 8)%Z) |}.

(** [optimize_delivery_route].  Logging is not modelled. *)
Definition optimize_delivery_route (pharmacies : list Pharmacy)
    (vehicle_capacity : Z) (current_weather : Dict pyval) : M (list Pharmacy) :=
  match pharmacies with
  | [] => ret []
  | _ :: _ =>
      now0 <- now ;;
      now1 <- now ;;
      let depot := make_depot now0 now1 in
      let prioritized_pharmacies := _apply_emergency_priority pharmacies in
      let route := [depot] in
      let unvisited := prioritized_pharmacies in
      route <- greedy_loop (List.length unvisited) route unvisited current_weather ;;
      ret (route ++ [depot])
  end.

(** ** RouteReportGenerator *)

Definition road_conditions_weights : Dict R :=
  [("highway"%string, 1.0); ("paved_road"%string, 1.2);
   ("gravel_road"%string, 1.5); ("mountain_pass"%string, 2.0);
   ("winter_road"%string, 1.8)].

(** The [for i in range(len(route) - 1)] loop of [generate_route_report]:
    the segments in order with the running totals.  The distance and the
    duration of a leg are in exact arithmetic; over floats the duration is
    truncated from a rounded product and a leg can raise through
    [calculate_distance].  The properties below are about routes without a
    leg and about the pharmacy count, which pass through no such
    arithmetic. *)
Fixpoint report_loop (route : list Pharmacy) (total_distance total_duration : R)
    (segs : list RouteSegment) : R * R * list RouteSegment :=
  match route with
  | start_ :: ((end_ :: _) as rest) =>
      let distance :=
        calculate_distance (latitude start_) (longitude start_)
                           (latitude end_) (longitude end_) in
      let base_speed := 60 in
      let road_condition_factor :=
        dict_get_default road_conditions_weights "paved_road" 1.0 in
      let duration := (distance / base_speed) * road_condition_factor * 60 in
      let segment :=
        {| start_pharmacy := start_;
           end_pharmacy := end_;
           distance_km := py_round2 distance;
           estimated_duration_min := py_int duration;
           road_conditions := "paved_road";
           weather_risk := 0.1 |} in
      report_loop rest (total_distance + distance) (total_duration + duration)
                  (segs ++ [segment])
  | _ => (total_distance, total_duration, segs)
  end.

(** [generate_route_report]. *)
Definition generate_route_report (route : list Pharmacy) : M RouteReport :=
  let '(total_distance, total_duration, segs) := report_loop route 0 0 [] in
  now0 <- now ;;
  now1 <- now ;;
  ret {| route_id := now0;
         total_distance_km := py_round2 total_distance;
         total_duration_min := py_int total_duration;
         pharmacy_count := (Z.of_nat (List.length route) - 2)%Z;
         segments := segs;
         estimated_fuel_consumption := py_round2 (total_distance * 0.12);
         generated_at := now1 |}.

(** ** Scores with the clock reading made explicit *)

(** The total of [_calculate_pharmacy_score] when its clock reading is
    [now_]. *)
Definition score_at (now_ : datetime) (current target : Pharmacy)
    (weather : Dict pyval) : R :=
  100 / (calculate_distance (latitude current) (longitude current)
                            (latitude target) (longitude target) + 1)
  + priority target * 10
  + 50 * (1 - _calculate_weather_impact weather target)
  + urgency_at now_ target.

(** The candidates of one pass of [_select_next_pharmacy] that starts at
    reading [t], each with the score the pass computes for it: the [i]-th
    candidate is scored against reading [t + i]. *)
Fixpoint scored (clock : Clock) (t : nat) (current : Pharmacy)
    (weather : Dict pyval) (candidates : list Pharmacy) : list (Pharmacy * R) :=
  match candidates with
  | [] => []
  | c :: rest =>
      (c, score_at (clock t) current c weather)
        :: scored clock (S t) current weather rest
  end.

(** A pharmacy with another priority, every other field kept. *)
Definition with_priority (p : Pharmacy) (prio : R) : Pharmacy :=
  {| id := id p;
     name := name p;
     latitude := latitude p;
     longitude := longitude p;
     priority := prio;
     delivery_window := delivery_window p |}.

(** ** Dependence on the wall clock *)

(** [agree_from t c1 c2]: the two clocks give the same readings from the
    [t]-th one on. *)
Definition agree_from (t : nat) (c1 c2 : Clock) : Prop :=
  forall k, (t <= k)%nat -> c1 k = c2 k.

(** A computation that sees the clock only through the readings it makes:
    under clocks that agree from the current reading on it behaves the
    same, and it never un-reads. *)
Definition clock_local {A : Type} (m : M A) : Prop :=
  forall c1 c2 t,
    agree_from t c1 c2 ->
    m c1 t = m c2 t
    /\ forall a t', m c1 t = Returned (a, t') -> (t <= t')%nat.

(** ** Sample inputs *)

(** Weather dictionaries as [main] builds them. *)
Definition weather_clear : Dict pyval :=
  [("condition"%string, VStr "clear"); ("temperature"%string, VNum 12);
   ("wind_speed"%string, VNum 5)].

Definition weather_snow : Dict pyval :=
  [("condition"%string, VStr "snow"); ("temperature"%string, VNum (-15));
   ("wind_speed"%string, VNum 25)].

(** A clock that stands still at [0]. *)
Definition clock_frozen : Clock := fun _ => 0%Z.

(** A clock that reads [0] twice and two hours from then on. *)
Definition clock_jump : Clock :=
  fun k => if (k <? 2)%nat then 0%Z else timedelta_hours 2.

(** A pharmacy at the depot's coordinates. *)
Definition pharmacy_at_depot (ident : string) (prio : Z)
    (window : datetime * datetime) : Pharmacy :=
  {| id := ident;
     name := "Pharmacy";
     latitude := 52.0375;
     longitude := 106.6522;
     priority := IZR prio;
     delivery_window := window |}.

Definition window_far : datetime * datetime :=
  (timedelta_hours 10, timedelta_hours 12).

Definition window_soon : datetime * datetime :=
  (timedelta_hours 3, timedelta_hours 6).

Definition pharmacy_002 : Pharmacy := pharmacy_at_depot "pharmacy_002" 6 window_far.
Definition pharmacy_003 : Pharmacy := pharmacy_at_depot "pharmacy_003" 4 window_soon.
Definition pharmacy_005 : Pharmacy := pharmacy_at_depot "pharmacy_005" 3 window_far.
Definition pharmacy_009 : Pharmacy := pharmacy_at_depot "pharmacy_009" 6 window_far.


(** ** Objects and references

    Python lists and dataclass instances are objects reached through
    references.  To speak of what [_apply_emergency_priority] leaves
    untouched, it is given a second time over a store of objects: the
    argument and the result are references to lists of references. *)

Definition addr := nat.

Inductive obj :=
| OPharmacy (p : Pharmacy)
| OList (items : list addr).

Definition heap := list obj.

(** A new object takes the next free address. *)
Definition alloc (h : heap) (o : obj) : heap * addr := (h ++ [o], List.length h).

Definition read_pharmacy (h : heap) (a : addr) : option Pharmacy :=
  match nth_error h a with
  | Some (OPharmacy p) => Some p
  | _ => None
  end.

Definition read_list (h : heap) (a : addr) : option (list addr) :=
  match nth_error h a with
  | Some (OList items) => Some items
  | _ => None
  end.

Fixpoint heap_update (h : heap) (a : addr) (o : obj) : heap :=
  match h, a with
  | [], _ => []
  | _ :: rest, O => o :: rest
  | x :: rest, S a' => x :: heap_update rest a' o
  end.

(** [lst.append(x)]: the list object at [lst] is updated in place. *)
Definition list_append (h : heap) (lst x : addr) : option heap :=
  match read_list h lst with
  | Some items => Some (heap_update h lst (OList (items ++ [x])))
  | None => None
  end.

(** The [for pharmacy in pharmacies] loop of [_apply_emergency_priority]:
    each boosted copy is a new object, appended to [emergency_boosted]. *)
Fixpoint boost_all (h : heap) (items : list addr) (emergency_boosted : addr)
    : option heap :=
  match items with
  | [] => Some h
  | a :: rest =>
      match read_pharmacy h a with
      | Some pharmacy =>
          let '(h1, b) := alloc h (OPharmacy (boosted_pharmacy pharmacy)) in
          match list_append h1 emergency_boosted b with
          | Some h2 => boost_all h2 rest emergency_boosted
          | None => None
          end
      | None => None
      end
  end.

(** The references of a list, each with the object it points to. *)
Fixpoint read_all (h : heap) (items : list addr) : option (list (addr * Pharmacy)) :=
  match items with
  | [] => Some []
  | a :: rest =>
      match read_pharmacy h a, read_all h rest with
      | Some p, Some l => Some ((a, p) :: l)
      | _, _ => None
      end
  end.

(** [sorted(lst, key=lambda x: x.priority, reverse=True)]: a new list object
    holding the same references in sorted order. *)
Definition sorted_refs (h : heap) (lst : addr) : option (heap * addr) :=
  match read_list h lst with
  | Some items =>
      match read_all h items with
      | Some keyed =>
          Some (alloc h (OList (map fst
                  (py_sorted_desc (fun ap => priority (snd ap)) keyed))))
      | None => None
      end
  | None => None
  end.

(** [_apply_emergency_priority] over the store. *)
Definition apply_emergency_priority_refs (h : heap) (pharmacies : addr)
    : option (heap * addr) :=
  match read_list h pharmacies with
  | Some items =>
      let '(h0, emergency_boosted) := alloc h (OList []) in
      match boost_all h0 items emergency_boosted with
      | Some h1 => sorted_refs h1 emergency_boosted
      | None => None
      end
  | None => None
  end.

(** A store with a list of two pharmacies. *)
Definition heap_sample : heap :=
  [OPharmacy pharmacy_005; OPharmacy pharmacy_002; OList [0%nat; 1%nat]].

(** Two weather dictionaries with the same entry, or none, under
    ['condition']. *)
Definition same_condition (w1 w2 : Dict pyval) : Prop :=
  dict_get w1 "condition" = dict_get w2 "condition".

(** A weather dictionary that holds the condition only. *)
Definition weather_clear_only : Dict pyval := [("condition"%string, VStr "clear")].

(** * The optimizer over binary64 floats

    A second transcription of the route builder, for the properties that
    depend on what Python floats do beyond real arithmetic: a float is an
    IEEE 754 binary64 value ([PrimFloat.float]), with its rounding, its
    infinities and NaN, and the operations raise the exceptions they raise
    in Python.  The calls that leave the interpreter for the C library are
    a parameter of the model. *)

Module B64.

Local Open Scope float_scope.

(** A decimal literal denotes the nearest binary64 value, as it does in
    Python. *)
#[local] Set Warnings "-inexact-float".

(** The result of a call into the math library or of a conversion: a float,
    or one of the two errors such a call raises. *)
Inductive mres :=
| MReturn (x : float)
| MValueError
| MOverflowError.

Definition mbind (r : mres) (k : float -> mres) : mres :=
  match r with
  | MReturn x => k x
  | MValueError => MValueError
  | MOverflowError => MOverflowError
  end.

Notation "x <== r ;; k" := (mbind r (fun x => k))
  (at level 61, r at next level, right associativity).

(** The calls that end in the C library: [math.sin], [math.cos],
    [math.atan2] and the float power [x ** y].  Their values are not fixed
    by the repository nor by IEEE 754; every statement below holds whatever
    they return or raise. *)
Record MathModule := mkMathModule {
  math_sin : float -> mres;
  math_cos : float -> mres;
  math_atan2 : float -> float -> mres;
  float_pow : float -> float -> mres
}.

(** An [mres] as a computation: the error becomes the Python exception. *)
Definition lift (r : mres) : M float :=
  match r with
  | MReturn x => ret x
  | MValueError => raise (Exn "ValueError")
  | MOverflowError => raise (Exn "OverflowError")
  end.

(** A Python number: an [int] or a [float]. *)
Inductive pynum :=
| PyInt (z : Z)
| PyFloat (x : float).

(** [float(z)] for an [int], as the mixed operations do it: the nearest
    float, halves to even, and OverflowError when there is none. *)
Definition float_of_int (z : Z) : mres :=
  let x := SF2Prim (binary_normalize prec emax z 0 false) in
  if is_infinity x then MOverflowError else MReturn x.

Definition to_float (n : pynum) : mres :=
  match n with
  | PyInt z => float_of_int z
  | PyFloat x => MReturn x
  end.

(** The integer [m * 2 ^ e] of a finite float compared with an [int]:
    Python compares an [int] and a [float] by their exact values. *)
Definition Z_ltb_float (z : Z) (x : float) : bool :=
  match Prim2SF x with
  | S754_nan => false
  | S754_infinity s => negb s
  | S754_zero _ => (z <? 0)%Z
  | S754_finite s m e =>
      let v := cond_Zopp s (Zpos m) in
      if (0 <=? e)%Z then (z <? v * 2 ^ e)%Z else (z * 2 ^ (- e) <? v)%Z
  end.

Definition float_ltb_Z (x : float) (z : Z) : bool :=
  match Prim2SF x with
  | S754_nan => false
  | S754_infinity s => s
  | S754_zero _ => (0 <? z)%Z
  | S754_finite s m e =>
      let v := cond_Zopp s (Zpos m) in
      if (0 <=? e)%Z then (v * 2 ^ e <? z)%Z else (v <? z * 2 ^ (- e))%Z
  end.

(** [a < b] and [a == b] on numbers. *)
Definition pynum_ltb (a b : pynum) : bool :=
  match a, b with
  | PyInt x, PyInt y => (x <? y)%Z
  | PyFloat x, PyFloat y => x <? y
  | PyInt x, PyFloat y => Z_ltb_float x y
  | PyFloat x, PyInt y => float_ltb_Z x y
  end.

Definition pynum_eqb (a b : pynum) : bool :=
  match a, b with
  | PyInt x, PyInt y => (x =? y)%Z
  | PyFloat x, PyFloat y => x =? y
  | PyInt x, PyFloat y =>
      negb (is_nan y) && negb (Z_ltb_float x y) && negb (float_ltb_Z y x)
  | PyFloat x, PyInt y =>
      negb (is_nan x) && negb (float_ltb_Z x y) && negb (Z_ltb_float y x)
  end.

(** The [Pharmacy] dataclass with float coordinates and a priority that is
    an [int] on input and may be a [float] after adjustment. *)
Record Pharmacy := mkPharmacy {
  id : string;
  name : string;
  latitude : float;
  longitude : float;
  priority : pynum;
  delivery_window : datetime * datetime
}.

(** The dataclass [__eq__], field by field with [==].  Two NaN fields are
    unequal: they are taken to be distinct float objects.  The statements
    below use of [py_eq] only that [list_remove] consults it; none depends
    on which pairs it holds of. *)
Definition py_eq (p q : Pharmacy) : bool :=
  String.eqb (id p) (id q)
  && String.eqb (name p) (name q)
  && (latitude p =? latitude q)
  && (longitude p =? longitude q)
  && pynum_eqb (priority p) (priority q)
  && (fst (delivery_window p) =? fst (delivery_window q))%Z
  && (snd (delivery_window p) =? snd (delivery_window q))%Z.

(** [lst[-1]]. *)
Fixpoint list_last (l : list Pharmacy) : M Pharmacy :=
  match l with
  | [] => raise (Exn "IndexError")
  | [x] => ret x
  | _ :: rest => list_last rest
  end.

(** [lst.remove(x)] for the object [x] that sits at position [i] of the
    list: the first element that is [x] itself or equal to it goes. *)
Fixpoint list_remove (i : nat) (x : Pharmacy) (l : list Pharmacy)
    : M (list Pharmacy) :=
  match l with
  | [] => raise (Exn "ValueError")
  | y :: rest =>
      if (i =? 0)%nat || py_eq y x then ret rest
      else rest' <- list_remove (Nat.pred i) x rest ;; ret (y :: rest')
  end.

(** ** GeoDistance *)

(** [math.pi / 180], the constant of [math.radians]. *)
Definition degToRad : float := 0x1.921fb54442d18p+1 / 180.

Definition radians (x : float) : float := x * degToRad.

(** [math.sqrt]: the IEEE square root; a negative argument is a domain
    error. *)
Definition math_sqrt (x : float) : mres :=
  let r := PrimFloat.sqrt x in
  if is_nan r && negb (is_nan x) then MValueError else MReturn r.

(** [calculate_distance], the calls in the order Python makes them. *)
Definition calculate_distance (m : MathModule) (lat1 lon1 lat2 lon2 : float)
    : mres :=
  let R_earth := 6371 in
  let lat1 := radians lat1 in
  let lon1 := radians lon1 in
  let lat2 := radians lat2 in
  let lon2 := radians lon2 in
  let dlat := lat2 - lat1 in
  let dlon := lon2 - lon1 in
  sin_dlat <== math_sin m (dlat / 2) ;;
  sin_dlat_sq <== float_pow m sin_dlat 2 ;;
  cos_lat1 <== math_cos m lat1 ;;
  cos_lat2 <== math_cos m lat2 ;;
  sin_dlon <== math_sin m (dlon / 2) ;;
  sin_dlon_sq <== float_pow m sin_dlon 2 ;;
  let a := sin_dlat_sq + cos_lat1 * cos_lat2 * sin_dlon_sq in
  sqrt_a <== math_sqrt a ;;
  sqrt_1a <== math_sqrt (1 - a) ;;
  atan <== math_atan2 m sqrt_a sqrt_1a ;;
  let c := 2 * atan in
  MReturn (R_earth * c).

(** ** PriorityAdjuster *)

Definition emergency_zones : Dict float :=
  [("pharmacy_001"%string, 2.5); ("pharmacy_005"%string, 1.8)].

Definition _detect_emergency_situation (pharmacy : Pharmacy) : float :=
  dict_get_default emergency_zones (id pharmacy) 1.0.

(** [min(10, x)] for a float [x]: the [int] 10 unless [x < 10]. *)
Definition min_10 (x : float) : pynum :=
  if x <? 10 then PyFloat x else PyInt 10.

(** The boosted copy; [priority * multiplier] converts an [int] priority
    to a float first. *)
Definition boosted_pharmacy (pharmacy : Pharmacy) : M Pharmacy :=
  let emergency_multiplier := _detect_emergency_situation pharmacy in
  priority_ <- lift (to_float (priority pharmacy)) ;;
  ret {| id := id pharmacy;
         name := name pharmacy;
         latitude := latitude pharmacy;
         longitude := longitude pharmacy;
         priority := min_10 (priority_ * emergency_multiplier);
         delivery_window := delivery_window pharmacy |}.

Fixpoint boost_loop (pharmacies : list Pharmacy) : M (list Pharmacy) :=
  match pharmacies with
  | [] => ret []
  | pharmacy :: rest =>
      boosted <- boosted_pharmacy pharmacy ;;
      emergency_boosted <- boost_loop rest ;;
      ret (boosted :: emergency_boosted)
  end.

(** The stable descending sort on the priorities.  The keys are never NaN
    ([min_10] turns NaN into 10), so they are totally ordered and the
    result of the stable sort is the one computed here. *)
Fixpoint insert_desc (x : Pharmacy) (l : list Pharmacy) : list Pharmacy :=
  match l with
  | [] => [x]
  | y :: rest =>
      if pynum_ltb (priority x) (priority y) then y :: insert_desc x rest
      else x :: y :: rest
  end.

Definition py_sorted_desc (l : list Pharmacy) : list Pharmacy :=
  fold_right insert_desc [] l.

Definition _apply_emergency_priority (pharmacies : list Pharmacy)
    : M (list Pharmacy) :=
  emergency_boosted <- boost_loop pharmacies ;;
  ret (py_sorted_desc emergency_boosted).

(** ** CandidateScorer *)

Definition _calculate_weather_impact (weather : Dict pyval) (pharmacy : Pharmacy)
    : float :=
  let base_risk := 0.1 in
  let base_risk :=
    if 52.5 <? latitude pharmacy then base_risk + 0.3 else base_risk in
  let base_risk :=
    if condition_is weather "snow" then base_risk + 0.4
    else if condition_is weather "rain" then base_risk + 0.2
    else base_risk in
  if 1.0 <? base_risk then 1.0 else base_risk.

(** The branches of [_calculate_time_urgency].  The float
    [total_seconds() / 3600] is a correctly rounded, hence monotone,
    function of the microsecond count, and 7200 s and 14400 s divide to
    exactly 2 and 4: its tests decide as these integer comparisons. *)
Definition urgency_at (now_ : datetime) (pharmacy : Pharmacy) : pynum :=
  let '(window_start, window_end) := delivery_window pharmacy in
  if (window_start - now_ <=? timedelta_hours 2)%Z then PyInt 30
  else if (window_start - now_ <=? timedelta_hours 4)%Z then PyInt 15
  else PyInt 5.

Definition _calculate_time_urgency (pharmacy : Pharmacy) : M pynum :=
  now_ <- now ;;
  ret (urgency_at now_ pharmacy).

(** [100 / y] for a float [y]. *)
Definition div_100 (y : float) : M float :=
  if y =? 0 then raise (Exn "ZeroDivisionError") else ret (100 / y).

(** [priority * 10]. *)
Definition times_10 (n : pynum) : pynum :=
  match n with
  | PyInt z => PyInt (z * 10)
  | PyFloat x => PyFloat (x * 10)
  end.

(** [x + n] for a float [x] and a number [n]. *)
Definition add_num (x : float) (n : pynum) : M float :=
  y <- lift (to_float n) ;;
  ret (x + y).

Definition _calculate_pharmacy_score (m : MathModule) (current target : Pharmacy)
    (weather : Dict pyval) : M float :=
  distance <- lift (calculate_distance m (latitude current) (longitude current)
                      (latitude target) (longitude target)) ;;
  distance_score <- div_100 (distance + 1) ;;
  let priority_score := times_10 (priority target) in
  let weather_impact := _calculate_weather_impact weather target in
  let weather_score := 50 * (1 - weather_impact) in
  time_urgency <- _calculate_time_urgency target ;;
  total_score <- add_num distance_score priority_score ;;
  let total_score := total_score + weather_score in
  total_score <- add_num total_score time_urgency ;;
  ret total_score.

(** ** RouteBuilder *)

(** The loop of [_select_next_pharmacy]; the best pharmacy is kept with its
    position [i] in the list, which stands for the object. *)
Fixpoint select_loop (m : MathModule) (current : Pharmacy)
    (candidates : list Pharmacy) (i : nat) (weather : Dict pyval)
    (best_score : float) (best_pharmacy : option (nat * Pharmacy))
    : M (option (nat * Pharmacy)) :=
  match candidates with
  | [] => ret best_pharmacy
  | pharmacy :: rest =>
      score <- _calculate_pharmacy_score m current pharmacy weather ;;
      if best_score <? score
      then select_loop m current rest (S i) weather score (Some (i, pharmacy))
      else select_loop m current rest (S i) weather best_score best_pharmacy
  end.

Definition _select_next_pharmacy (m : MathModule) (current : Pharmacy)
    (candidates : list Pharmacy) (weather : Dict pyval)
    : M (option (nat * Pharmacy)) :=
  select_loop m current candidates 0 weather neg_infinity None.

Fixpoint greedy_loop (m : MathModule) (fuel : nat)
    (route unvisited : list Pharmacy) (current_weather : Dict pyval)
    : M (list Pharmacy) :=
  match unvisited with
  | [] => ret route
  | _ :: _ =>
      match fuel with
      | O => out_of_fuel
      | S fuel' =>
          current_location <- list_last route ;;
          next_pharmacy <- _select_next_pharmacy m current_location unvisited
                             current_weather ;;
          match next_pharmacy with
          | Some (i, next_) =>
              unvisited' <- list_remove i next_ unvisited ;;
              greedy_loop m fuel' (route ++ [next_]) unvisited' current_weather
          | None => ret route
          end
      end
  end.

Definition make_depot (now0 now1 : datetime) : Pharmacy :=
  {| id := "depot";
     name := "Central Distribution Center";
     latitude := 52.0375;
     longitude := 106.6522;
     priority := PyInt 1;
     delivery_window := (now0, (now1 + timedelta_hours 8)%Z) |}.

Definition optimize_delivery_route (m : MathModule) (pharmacies : list Pharmacy)
    (vehicle_capacity : Z) (current_weather : Dict pyval) : M (list Pharmacy) :=
  match pharmacies with
  | [] => ret []
  | _ :: _ =>
      now0 <- now ;;
      now1 <- now ;;
      let depot := make_depot now0 now1 in
      prioritized_pharmacies <- _apply_emergency_priority pharmacies ;;
      let route := [depot] in
      let unvisited := prioritized_pharmacies in
      route <- greedy_loop m (List.length unvisited) route unvisited
                 current_weather ;;
      ret (route ++ [depot])
  end.

(** ** Statements about outcomes *)









End B64.

(** * Properties *)

Lemma Rltb_true x y : x < y -> Rltb x y = true.
Proof. intros H. unfold Rltb. destruct (Rlt_dec x y); [reflexivity | contradiction]. Qed.

Lemma Rltb_false x y : y <= x -> Rltb x y = false.
Proof. intros H. unfold Rltb. destruct (Rlt_dec x y); [lra | reflexivity]. Qed.

Lemma Rleb_true x y : x <= y -> Rleb x y = true.
Proof. intros H. unfold Rleb. destruct (Rle_dec x y); [reflexivity | contradiction]. Qed.

Lemma Rleb_false x y : y < x -> Rleb x y = false.
Proof. intros H. unfold Rleb. destruct (Rle_dec x y); [lra | reflexivity]. Qed.

Lemma sin_half_sqr_swap x y : sin ((x - y) / 2) ^ 2 = sin ((y - x) / 2) ^ 2.
Proof.
  replace ((x - y) / 2) with (- ((y - x) / 2)) by lra.
  rewrite sin_neg. ring.
Qed.

Lemma atan2_0_1 : atan2 0 1 = 0.
Proof.
  unfold atan2. rewrite Rltb_true by lra.
  replace (0 / 1) with 0 by lra. apply atan_0.
Qed.

Lemma calculate_distance_sym lat1 lon1 lat2 lon2 :
  calculate_distance lat1 lon1 lat2 lon2 = calculate_distance lat2 lon2 lat1 lon1.
Proof.
  unfold calculate_distance. cbv zeta.
  rewrite (sin_half_sqr_swap (radians lat2) (radians lat1)).
  rewrite (sin_half_sqr_swap (radians lon2) (radians lon1)).
  rewrite (Rmult_comm (cos (radians lat1)) (cos (radians lat2))).
  reflexivity.
Qed.

Lemma calculate_distance_same lat lon : calculate_distance lat lon lat lon = 0.
Proof.
  unfold calculate_distance. cbv zeta.
  replace ((radians lat - radians lat) / 2) with 0 by lra.
  replace ((radians lon - radians lon) / 2) with 0 by lra.
  rewrite sin_0.
  replace (0 ^ 2 + cos (radians lat) * cos (radians lat) * 0 ^ 2) with 0 by ring.
  rewrite sqrt_0. replace (1 - 0) with 1 by ring. rewrite sqrt_1.
  rewrite atan2_0_1. ring.
Qed.

(** C8: the great-circle distance is symmetric in its two points and is zero
    between a point and itself, for all coordinates (the valid ones among
    them). *)
Theorem calculate_distance_symmetric_zero (lat1 lon1 lat2 lon2 : R) :
  calculate_distance lat1 lon1 lat2 lon2 = calculate_distance lat2 lon2 lat1 lon1
  /\ calculate_distance lat1 lon1 lat1 lon1 = 0.
Proof.
  split; [apply calculate_distance_sym | apply calculate_distance_same].
Qed.

(** ** The stable descending sort *)

Section PySortedFacts.
Context {A : Type} (key : A -> R).

Lemma insert_desc_perm x l : Permutation (x :: l) (insert_desc key x l).
Proof.
  induction l as [| y rest IH]; simpl.
  - apply Permutation_refl.
  - destruct (Rltb (key x) (key y)).
    + eapply perm_trans; [apply perm_swap |].
      apply perm_skip, IH.
    + apply Permutation_refl.
Qed.

Lemma py_sorted_desc_perm l : Permutation l (py_sorted_desc key l).
Proof.
  induction l as [| x rest IH]; simpl.
  - apply perm_nil.
  - eapply perm_trans; [apply perm_skip, IH | apply insert_desc_perm].
Qed.

Lemma py_sorted_desc_length l : List.length (py_sorted_desc key l) = List.length l.
Proof. symmetry. apply Permutation_length, py_sorted_desc_perm. Qed.

Lemma insert_desc_sorted x l :
  StronglySorted (key_ge key) l -> StronglySorted (key_ge key) (insert_desc key x l).
Proof.
  induction 1 as [| y rest Hs IH Hall]; simpl.
  - constructor; constructor.
  - unfold Rltb. destruct (Rlt_dec (key x) (key y)) as [Hlt | Hge].
    + constructor; [exact IH |].
      eapply Permutation_Forall; [apply insert_desc_perm |].
      constructor; [unfold key_ge; lra | exact Hall].
    + constructor; [constructor; assumption |].
      constructor; [unfold key_ge; lra |].
      eapply Forall_impl; [| exact Hall].
      intros z Hz. unfold key_ge in *. lra.
Qed.

Lemma py_sorted_desc_sorted l : StronglySorted (key_ge key) (py_sorted_desc key l).
Proof.
  induction l as [| x rest IH]; simpl.
  - constructor.
  - apply insert_desc_sorted, IH.
Qed.

Lemma insert_desc_filter k x l :
  filter (has_key key k) (insert_desc key x l) = filter (has_key key k) (x :: l).
Proof.
  induction l as [| y rest IH].
  - reflexivity.
  - cbn [insert_desc]. unfold Rltb.
    destruct (Rlt_dec (key x) (key y)) as [Hlt | Hge]; [| reflexivity].
    cbn [filter] in *. rewrite IH.
    unfold has_key.
    destruct (Req_dec_T (key x) k), (Req_dec_T (key y) k); try reflexivity.
    lra.
Qed.

Lemma py_sorted_desc_stable k l :
  filter (has_key key k) (py_sorted_desc key l) = filter (has_key key k) l.
Proof.
  induction l as [| x rest IH].
  - reflexivity.
  - cbn [py_sorted_desc fold_right]. rewrite insert_desc_filter.
    cbn [filter]. fold (py_sorted_desc key rest). rewrite IH. reflexivity.
Qed.
End PySortedFacts.

(** Sorting commutes with a map that is transparent to the key. *)
Lemma py_sorted_desc_map {A B : Type} (f : A -> B) (key : B -> R) (l : list A) :
  map f (py_sorted_desc (fun a => key (f a)) l) = py_sorted_desc key (map f l).
Proof.
  induction l as [| x rest IH]; [reflexivity |].
  cbn [py_sorted_desc fold_right map].
  fold (py_sorted_desc (fun a => key (f a)) rest).
  fold (py_sorted_desc key (map f rest)).
  rewrite <- IH. clear IH.
  induction (py_sorted_desc (fun a => key (f a)) rest) as [| y ys IHy].
  - reflexivity.
  - cbn [insert_desc map].
    destruct (Rltb (key (f x)) (key (f y))); cbn [map]; [rewrite IHy |]; reflexivity.
Qed.

(** ** The scorer and one selection pass *)

Lemma calculate_pharmacy_score_eq current target weather clock t :
  _calculate_pharmacy_score current target weather clock t
  = Returned (score_at (clock t) current target weather, S t).
Proof. reflexivity. Qed.

Lemma scored_fst clock t current weather candidates :
  map fst (scored clock t current weather candidates) = candidates.
Proof.
  revert t. induction candidates as [| c rest IH]; intros t; simpl.
  - reflexivity.
  - rewrite IH. reflexivity.
Qed.

(** With a running best [(b, bp)], a pass returns [bp] when no score exceeds
    [b], and otherwise the first candidate whose score is the largest. *)
Lemma select_loop_best current weather clock candidates :
  forall t b bp,
  exists p,
    select_loop current candidates weather (Fin b) (Some bp) clock t
    = Returned (Some p, (t + List.length candidates)%nat)
    /\ ((p = bp
         /\ Forall (fun qs => snd qs <= b) (scored clock t current weather candidates))
        \/ exists l1 s l2,
             scored clock t current weather candidates = l1 ++ (p, s) :: l2
             /\ b < s
             /\ Forall (fun qs => snd qs < s) l1
             /\ Forall (fun qs => snd qs <= s) l2).
Proof.
  induction candidates as [| c rest IH]; intros t b bp.
  - exists bp. split.
    + cbn. unfold ret. now rewrite Nat.add_0_r.
    + left. split; [reflexivity | constructor].
  - cbn [select_loop scored List.length]. unfold bind at 1.
    rewrite calculate_pharmacy_score_eq.
    set (sc := score_at (clock t) current c weather).
    replace (t + S (List.length rest))%nat with (S t + List.length rest)%nat by lia.
    cbn [score_gt]. unfold Rltb.
    destruct (Rlt_dec b sc) as [Hlt | Hge].
    + destruct (IH (S t) sc c) as (p & Hrun & Hp).
      exists p. split; [exact Hrun |]. right.
      destruct Hp as [[-> Hall] | (l1 & s & l2 & Heq & Hs & H1 & H2)].
      * exists [], sc, (scored clock (S t) current weather rest).
        repeat split; [exact Hlt | constructor | exact Hall].
      * exists ((c, sc) :: l1), s, l2.
        repeat split.
        -- rewrite Heq. reflexivity.
        -- lra.
        -- constructor; [exact Hs | exact H1].
        -- exact H2.
    + destruct (IH (S t) b bp) as (p & Hrun & Hp).
      exists p. split; [exact Hrun |].
      destruct Hp as [[-> Hall] | (l1 & s & l2 & Heq & Hs & H1 & H2)].
      * left. split; [reflexivity |].
        constructor; [cbn; lra | exact Hall].
      * right. exists ((c, sc) :: l1), s, l2.
        repeat split.
        -- rewrite Heq. reflexivity.
        -- exact Hs.
        -- constructor; [cbn; lra | exact H1].
        -- exact H2.
Qed.

(** A pass over a non-empty candidate list returns the first candidate whose
    score is the largest. *)
Lemma select_next_first_max current weather clock c rest t :
  exists p l1 s l2,
    _select_next_pharmacy current (c :: rest) weather clock t
    = Returned (Some p, (t + S (List.length rest))%nat)
    /\ scored clock t current weather (c :: rest) = l1 ++ (p, s) :: l2
    /\ Forall (fun qs => snd qs < s) l1
    /\ Forall (fun qs => snd qs <= s) l2.
Proof.
  unfold _select_next_pharmacy.
  cbn [select_loop scored]. unfold bind at 1.
  rewrite calculate_pharmacy_score_eq. cbn [score_gt].
  set (sc := score_at (clock t) current c weather).
  destruct (select_loop_best current weather clock rest (S t) sc c) as (p & Hrun & Hp).
  replace (t + S (List.length rest))%nat with (S t + List.length rest)%nat by lia.
  destruct Hp as [[-> Hall] | (l1 & s & l2 & Heq & Hs & H1 & H2)].
  - exists c, [], sc, (scored clock (S t) current weather rest).
    repeat split; [exact Hrun | constructor | exact Hall].
  - exists p, ((c, sc) :: l1), s, l2.
    repeat split.
    + exact Hrun.
    + rewrite Heq. reflexivity.
    + constructor; [exact Hs | exact H1].
    + exact H2.
Qed.

(** ** Fields kept by the boosted copy *)

Lemma boosted_pharmacy_frame p :
  id (boosted_pharmacy p) = id p
  /\ name (boosted_pharmacy p) = name p
  /\ latitude (boosted_pharmacy p) = latitude p
  /\ longitude (boosted_pharmacy p) = longitude p
  /\ delivery_window (boosted_pharmacy p) = delivery_window p.
Proof. repeat split. Qed.

(** ** Monotonicity of the score *)

(** C7: raising the priority of the candidate, every other input and the
    clock reading being the same, does not lower the total score. *)
Theorem calculate_pharmacy_score_monotone (current target : Pharmacy)
    (weather : Dict pyval) (clock : Clock) (t : nat) (prio' : R) :
  priority target <= prio' ->
  exists s s',
    _calculate_pharmacy_score current target weather clock t = Returned (s, S t)
    /\ _calculate_pharmacy_score current (with_priority target prio') weather clock t
       = Returned (s', S t)
    /\ s <= s'.
Proof.
  intros Hle.
  exists (score_at (clock t) current target weather),
         (score_at (clock t) current (with_priority target prio') weather).
  split; [apply calculate_pharmacy_score_eq |].
  split; [apply calculate_pharmacy_score_eq |].
  unfold score_at, _calculate_weather_impact, urgency_at.
  cbn [with_priority latitude longitude priority delivery_window].
  lra.
Qed.

Lemma calculate_pharmacy_score_monotone_witness :
  priority pharmacy_003 <= 9
  /\ exists s s',
       _calculate_pharmacy_score pharmacy_002 pharmacy_003 weather_snow clock_frozen 0%nat
       = Returned (s, 1%nat)
       /\ _calculate_pharmacy_score pharmacy_002 (with_priority pharmacy_003 9)
            weather_snow clock_frozen 0%nat
          = Returned (s', 1%nat)
       /\ s <= s'.
Proof.
  assert (H : priority pharmacy_003 <= 9) by (cbn; lra).
  split; [exact H |].
  exact (calculate_pharmacy_score_monotone pharmacy_002 pharmacy_003 weather_snow
           clock_frozen 0%nat 9 H).
Defined.

(** ** Evaluating the code on the sample inputs *)

(** The float test of [_calculate_time_urgency] decides as the comparison
    of the microsecond counts does. *)
Lemma urgency_at_cases now_ p :
  urgency_at now_ p =
  if (fst (delivery_window p) - now_ <=? timedelta_hours 2)%Z then 30
  else if (fst (delivery_window p) - now_ <=? timedelta_hours 4)%Z then 15
  else 5.
Proof.
  unfold urgency_at, total_seconds. destruct (delivery_window p) as [ws we].
  cbn [fst]. set (d := (ws - now_)%Z).
  change (timedelta_hours 2) with 7200000000%Z.
  change (timedelta_hours 4) with 14400000000%Z.
  destruct (Z.leb_spec d 7200000000) as [H2 | H2].
  - apply IZR_le in H2. rewrite Rleb_true by lra. reflexivity.
  - apply IZR_lt in H2. rewrite Rleb_false by lra.
    destruct (Z.leb_spec d 14400000000) as [H4 | H4].
    + apply IZR_le in H4. rewrite Rleb_true by lra. reflexivity.
    + apply IZR_lt in H4. rewrite Rleb_false by lra. reflexivity.
Qed.

Lemma weather_impact_clear_at_depot ident prio window :
  _calculate_weather_impact weather_clear (pharmacy_at_depot ident prio window) = 0.1.
Proof.
  unfold _calculate_weather_impact. cbn [latitude pharmacy_at_depot].
  rewrite Rltb_false by lra.
  change (condition_is weather_clear "snow") with false.
  change (condition_is weather_clear "rain") with false.
  cbv iota zeta. unfold py_min. rewrite Rltb_false by lra. reflexivity.
Qed.

(** Between two points at the depot's coordinates, under clear weather, the
    score is 145 plus ten times the priority plus the urgency. *)
Lemma score_at_depot now_ current ident prio window :
  latitude current = 52.0375 ->
  longitude current = 106.6522 ->
  score_at now_ current (pharmacy_at_depot ident prio window) weather_clear
  = 145 + IZR prio * 10 + urgency_at now_ (pharmacy_at_depot ident prio window).
Proof.
  intros Hlat Hlon. unfold score_at.
  rewrite weather_impact_clear_at_depot.
  cbn [latitude longitude priority pharmacy_at_depot].
  rewrite Hlat, Hlon, calculate_distance_same. lra.
Qed.

Lemma select_next_one current x weather clock t :
  _select_next_pharmacy current [x] weather clock t = Returned (Some x, S t).
Proof. reflexivity. Qed.

Lemma select_next_two current x y weather clock t :
  _select_next_pharmacy current [x; y] weather clock t
  = Returned (Some (if Rltb (score_at (clock t) current x weather)
                            (score_at (clock (S t)) current y weather)
                    then y else x), S (S t)).
Proof.
  unfold _select_next_pharmacy. cbn [select_loop].
  unfold bind at 1. rewrite calculate_pharmacy_score_eq. cbn [score_gt].
  unfold bind at 1. rewrite calculate_pharmacy_score_eq. cbn [score_gt].
  destruct (Rltb _ _); reflexivity.
Qed.

Lemma list_remove_head x rest clock t :
  list_remove x (x :: rest) clock t = Returned (rest, t).
Proof.
  cbn [list_remove]. destruct (Pharmacy_eq_dec x x); [reflexivity | congruence].
Qed.

Lemma list_remove_second x y clock t :
  list_remove y [x; y] clock t = Returned ([x], t) \/ x = y.
Proof.
  cbn [list_remove]. destruct (Pharmacy_eq_dec x y) as [-> | Hne].
  - right. reflexivity.
  - left. unfold bind. destruct (Pharmacy_eq_dec y y); [reflexivity | congruence].
Qed.

(** The greedy loop on two candidates: the first one is visited first unless
    the second one scores strictly higher. *)
Lemma greedy_loop_two d x y weather clock t :
  greedy_loop 2 [d] [x; y] weather clock t
  = Returned
      (if Rltb (score_at (clock t) d x weather) (score_at (clock (S t)) d y weather)
       then [d; y; x] else [d; x; y],
       S (S (S t))).
Proof.
  cbn [greedy_loop list_last]. unfold bind at 1. unfold ret at 1.
  unfold bind at 1. rewrite select_next_two.
  destruct (Rltb _ _).
  - destruct (list_remove_second x y clock (S (S t))) as [Hrm | ->].
    + unfold bind at 1. rewrite Hrm.
      cbn [greedy_loop app list_last]. unfold bind at 1. unfold ret at 1.
      unfold bind at 1. rewrite select_next_one.
      unfold bind at 1. rewrite list_remove_head. reflexivity.
    + unfold bind at 1. rewrite list_remove_head.
      cbn [greedy_loop app list_last]. unfold bind at 1. unfold ret at 1.
      unfold bind at 1. rewrite select_next_one.
      unfold bind at 1. rewrite list_remove_head. reflexivity.
  - unfold bind at 1. rewrite list_remove_head.
    cbn [greedy_loop app list_last]. unfold bind at 1. unfold ret at 1.
    unfold bind at 1. rewrite select_next_one.
    unfold bind at 1. rewrite list_remove_head. reflexivity.
Qed.

Lemma boosted_pharmacy_default p :
  _detect_emergency_situation p = 1.0 ->
  priority p <= 10 ->
  boosted_pharmacy p = p.
Proof.
  intros Hm Hp. unfold boosted_pharmacy. rewrite Hm.
  destruct p as [i n la lo pr w]. cbn [id name latitude longitude priority delivery_window] in *.
  f_equal. unfold py_min.
  destruct (Rlt_dec (pr * 1.0) 10).
  - rewrite Rltb_true by assumption. lra.
  - rewrite Rltb_false by lra. lra.
Qed.

Lemma apply_emergency_priority_002_003 :
  _apply_emergency_priority [pharmacy_002; pharmacy_003] = [pharmacy_002; pharmacy_003].
Proof.
  unfold _apply_emergency_priority. cbn [map].
  rewrite (boosted_pharmacy_default pharmacy_002) by (try reflexivity; cbn; lra).
  rewrite (boosted_pharmacy_default pharmacy_003) by (try reflexivity; cbn; lra).
  cbn [py_sorted_desc fold_right insert_desc].
  rewrite Rltb_false by (cbn; lra). reflexivity.
Qed.

Lemma optimize_two_sample clock :
  optimize_delivery_route [pharmacy_002; pharmacy_003] 1000 weather_clear clock 0%nat
  = Returned
      (let d := make_depot (clock 0%nat) (clock 1%nat) in
       (if Rltb (score_at (clock 2%nat) d pharmacy_002 weather_clear)
                (score_at (clock 3%nat) d pharmacy_003 weather_clear)
        then [d; pharmacy_003; pharmacy_002] else [d; pharmacy_002; pharmacy_003])
       ++ [d], 5%nat).
Proof.
  unfold optimize_delivery_route.
  unfold bind at 1. unfold now at 1. unfold bind at 1. unfold now at 1.
  rewrite apply_emergency_priority_002_003. cbn [List.length].
  unfold bind at 1. rewrite greedy_loop_two. reflexivity.
Qed.

(** ** Dependence on the wall clock *)

Lemma clock_local_ret {A : Type} (a : A) : clock_local (ret a).
Proof.
  intros c1 c2 t _. split; [reflexivity |].
  intros a' t' H. inversion H. lia.
Qed.

Lemma clock_local_raise {A : Type} (e : exn) : clock_local (@raise A e).
Proof. intros c1 c2 t _. split; [reflexivity | intros a' t' H; inversion H]. Qed.

Lemma clock_local_out_of_fuel {A : Type} : clock_local (@out_of_fuel A).
Proof. intros c1 c2 t _. split; [reflexivity | intros a' t' H; inversion H]. Qed.

Lemma clock_local_now : clock_local now.
Proof.
  intros c1 c2 t Hag. unfold now. rewrite (Hag t (le_n t)). split; [reflexivity |].
  intros a t' H. inversion H. lia.
Qed.

Lemma clock_local_bind {A B : Type} (m : M A) (k : A -> M B) :
  clock_local m -> (forall a, clock_local (k a)) -> clock_local (bind m k).
Proof.
  intros Hm Hk c1 c2 t Hag. unfold bind.
  destruct (Hm c1 c2 t Hag) as [Heq Hmono]. rewrite <- Heq.
  destruct (m c1 t) as [[a t1] | e |].
  - assert (Ht : (t <= t1)%nat) by (apply (Hmono a); reflexivity).
    assert (Hag1 : agree_from t1 c1 c2) by (intros j Hj; apply Hag; lia).
    destruct (Hk a c1 c2 t1 Hag1) as [Heq1 Hmono1].
    split; [exact Heq1 |].
    intros b t' Hb. apply Hmono1 in Hb. lia.
  - split; [reflexivity | intros b t' H; inversion H].
  - split; [reflexivity | intros b t' H; inversion H].
Qed.

Create HintDb clock_local.

#[local] Hint Resolve clock_local_ret clock_local_raise clock_local_out_of_fuel
  clock_local_now clock_local_bind : clock_local.

Lemma clock_local_list_last l : clock_local (list_last l).
Proof.
  induction l as [| x [| y rest] IH]; cbn [list_last]; auto with clock_local.
Qed.

Lemma clock_local_list_remove x l : clock_local (list_remove x l).
Proof.
  induction l as [| y rest IH]; cbn [list_remove]; auto with clock_local.
  destruct (Pharmacy_eq_dec y x); auto with clock_local.
Qed.

Lemma clock_local_score current target weather :
  clock_local (_calculate_pharmacy_score current target weather).
Proof.
  unfold _calculate_pharmacy_score, _calculate_time_urgency.
  auto 10 with clock_local.
Qed.

Lemma clock_local_select_loop current weather candidates :
  forall best_score best_pharmacy,
    clock_local (select_loop current candidates weather best_score best_pharmacy).
Proof.
  induction candidates as [| c rest IH]; intros bs bp; cbn [select_loop].
  - auto with clock_local.
  - apply clock_local_bind; [apply clock_local_score |].
    intros score. destruct (score_gt score bs); apply IH.
Qed.

Lemma clock_local_greedy_loop weather fuel :
  forall route unvisited, clock_local (greedy_loop fuel route unvisited weather).
Proof.
  induction fuel as [| fuel IH]; intros route [| u us]; cbn [greedy_loop];
    auto with clock_local.
  apply clock_local_bind; [apply clock_local_list_last |]. intros cur.
  apply clock_local_bind; [apply clock_local_select_loop |]. intros [next_ |].
  - apply clock_local_bind; [apply clock_local_list_remove |]. intros rest. apply IH.
  - auto with clock_local.
Qed.

Lemma clock_local_optimize pharmacies capacity weather :
  clock_local (optimize_delivery_route pharmacies capacity weather).
Proof.
  unfold optimize_delivery_route. destruct pharmacies as [| p ps].
  - auto with clock_local.
  - apply clock_local_bind; [apply clock_local_now |]. intros now0.
    apply clock_local_bind; [apply clock_local_now |]. intros now1.
    apply clock_local_bind; [apply clock_local_greedy_loop |]. intros route.
    auto with clock_local.
Qed.

(** C3, as the code has it: the route is determined by the points, the
    weather and the wall-clock readings made during the call.  Two calls
    whose clocks agree from the first reading of the call on return the same
    route; every scoring step reads the clock afresh. *)
Theorem optimize_delivery_route_deterministic_given_clock
    (pharmacies : list Pharmacy) (capacity : Z) (weather : Dict pyval)
    (clock1 clock2 : Clock) (t : nat) :
  agree_from t clock1 clock2 ->
  optimize_delivery_route pharmacies capacity weather clock1 t
  = optimize_delivery_route pharmacies capacity weather clock2 t.
Proof.
  intros Hag. apply (clock_local_optimize pharmacies capacity weather), Hag.
Qed.

Lemma optimize_delivery_route_deterministic_given_clock_witness :
  agree_from 2%nat clock_jump (fun _ => timedelta_hours 2)
  /\ optimize_delivery_route [pharmacy_002; pharmacy_003] 1000 weather_clear
       clock_jump 2%nat
     = optimize_delivery_route [pharmacy_002; pharmacy_003] 1000 weather_clear
         (fun _ => timedelta_hours 2) 2%nat.
Proof.
  assert (H : agree_from 2%nat clock_jump (fun _ => timedelta_hours 2)).
  { intros k Hk. unfold clock_jump.
    destruct (Nat.ltb_spec k 2); [lia | reflexivity]. }
  split; [exact H |].
  exact (optimize_delivery_route_deterministic_given_clock
           [pharmacy_002; pharmacy_003] 1000 weather_clear
           clock_jump (fun _ => timedelta_hours 2) 2%nat H).
Defined.

(** Against C3 as stated: two calls on the same points and the same weather
    that start at the same time (the first two readings, from which the
    depot is built, are [0] in both) return different routes, because the
    clock has moved by the time the candidates are scored. *)
Lemma optimize_delivery_route_rereads_clock :
  clock_frozen 0%nat = clock_jump 0%nat
  /\ clock_frozen 1%nat = clock_jump 1%nat
  /\ optimize_delivery_route [pharmacy_002; pharmacy_003] 1000 weather_clear
       clock_frozen 0%nat
     = Returned ([make_depot 0%Z 0%Z; pharmacy_002; pharmacy_003; make_depot 0%Z 0%Z], 5%nat)
  /\ optimize_delivery_route [pharmacy_002; pharmacy_003] 1000 weather_clear
       clock_jump 0%nat
     = Returned ([make_depot 0%Z 0%Z; pharmacy_003; pharmacy_002; make_depot 0%Z 0%Z], 5%nat)
  /\ optimize_delivery_route [pharmacy_002; pharmacy_003] 1000 weather_clear
       clock_frozen 0%nat
     <> optimize_delivery_route [pharmacy_002; pharmacy_003] 1000 weather_clear
          clock_jump 0%nat.
Proof.
  assert (H1 : optimize_delivery_route [pharmacy_002; pharmacy_003] 1000 weather_clear
                 clock_frozen 0%nat
               = Returned ([make_depot 0%Z 0%Z; pharmacy_002; pharmacy_003; make_depot 0%Z 0%Z],
                           5%nat)).
  { rewrite optimize_two_sample. cbv zeta.
    unfold pharmacy_002 at 1, pharmacy_003 at 1.
    rewrite !score_at_depot by reflexivity.
    rewrite !urgency_at_cases.
    change (clock_frozen 2%nat) with 0%Z. change (clock_frozen 3%nat) with 0%Z.
    change (clock_frozen 0%nat) with 0%Z. change (clock_frozen 1%nat) with 0%Z.
    cbn [fst delivery_window pharmacy_at_depot window_far window_soon].
    change ((timedelta_hours 10 - 0 <=? timedelta_hours 2)%Z) with false.
    change ((timedelta_hours 10 - 0 <=? timedelta_hours 4)%Z) with false.
    change ((timedelta_hours 3 - 0 <=? timedelta_hours 2)%Z) with false.
    change ((timedelta_hours 3 - 0 <=? timedelta_hours 4)%Z) with true.
    cbv iota. rewrite Rltb_false by lra. reflexivity. }
  assert (H2 : optimize_delivery_route [pharmacy_002; pharmacy_003] 1000 weather_clear
                 clock_jump 0%nat
               = Returned ([make_depot 0%Z 0%Z; pharmacy_003; pharmacy_002; make_depot 0%Z 0%Z],
                           5%nat)).
  { rewrite optimize_two_sample. cbv zeta.
    unfold pharmacy_002 at 1, pharmacy_003 at 1.
    rewrite !score_at_depot by reflexivity.
    rewrite !urgency_at_cases.
    change (clock_jump 2%nat) with (timedelta_hours 2).
    change (clock_jump 3%nat) with (timedelta_hours 2).
    change (clock_jump 0%nat) with 0%Z. change (clock_jump 1%nat) with 0%Z.
    cbn [fst delivery_window pharmacy_at_depot window_far window_soon].
    change ((timedelta_hours 10 - timedelta_hours 2 <=? timedelta_hours 2)%Z) with false.
    change ((timedelta_hours 10 - timedelta_hours 2 <=? timedelta_hours 4)%Z) with false.
    change ((timedelta_hours 3 - timedelta_hours 2 <=? timedelta_hours 2)%Z) with true.
    cbv iota. rewrite Rltb_true by lra. reflexivity. }
  split; [reflexivity |]. split; [reflexivity |].
  split; [exact H1 |]. split; [exact H2 |].
  rewrite H1, H2. intros Heq.
  assert (Hid : id pharmacy_002 = id pharmacy_003) by (inversion Heq; reflexivity).
  discriminate Hid.
Qed.

(** ** Ties between candidates *)

(** C6, as the code has it: the candidate selected is the first one, in the
    order of the candidate list, whose score is the largest; every earlier
    candidate scores strictly less and no later one scores more.  Among
    candidates of equal score the earliest in the list wins, whatever the
    ids. *)
Theorem select_next_pharmacy_first_of_the_best (current c : Pharmacy)
    (rest : list Pharmacy) (weather : Dict pyval) (clock : Clock) (t : nat) :
  exists p l1 s l2,
    _select_next_pharmacy current (c :: rest) weather clock t
    = Returned (Some p, (t + List.length (c :: rest))%nat)
    /\ scored clock t current weather (c :: rest) = l1 ++ (p, s) :: l2
    /\ Forall (fun qs => snd qs < s) l1
    /\ Forall (fun qs => snd qs <= s) l2.
Proof.
  destruct (select_next_first_max current weather clock c rest t)
    as (p & l1 & s & l2 & Hrun & Heq & H1 & H2).
  exists p, l1, s, l2. cbn [List.length]. repeat split; assumption.
Qed.

(** Against C6 as stated: two candidates with the same score, the one with
    the higher id first in the list; the higher id is selected. *)
Lemma select_next_pharmacy_tie_keeps_list_order :
  score_at 0%Z (make_depot 0%Z 0%Z) pharmacy_009 weather_clear
  = score_at 0%Z (make_depot 0%Z 0%Z) pharmacy_002 weather_clear
  /\ String.ltb (id pharmacy_002) (id pharmacy_009) = true
  /\ _select_next_pharmacy (make_depot 0%Z 0%Z) [pharmacy_009; pharmacy_002]
       weather_clear clock_frozen 0%nat
     = Returned (Some pharmacy_009, 2%nat).
Proof.
  split; [reflexivity |]. split; [reflexivity |].
  rewrite select_next_two.
  change (clock_frozen 0%nat) with 0%Z. change (clock_frozen 1%nat) with 0%Z.
  replace (score_at 0%Z (make_depot 0%Z 0%Z) pharmacy_002 weather_clear)
    with (score_at 0%Z (make_depot 0%Z 0%Z) pharmacy_009 weather_clear)
    by reflexivity.
  rewrite Rltb_false by apply Rle_refl. reflexivity.
Qed.

(** ** Input acceptance *)


(** ** The report *)

Lemma generate_route_report_count route clock t :
  exists report,
    generate_route_report route clock t = Returned (report, S (S t))
    /\ pharmacy_count report = (Z.of_nat (List.length route) - 2)%Z.
Proof.
  unfold generate_route_report.
  destruct (report_loop route 0 0 []) as [[td tdur] segs].
  eexists. split; reflexivity.
Qed.

(** C4, on the empty route: the report counts minus two stops, not zero.
    The empty route is what [optimize_delivery_route] hands over for an
    empty input. *)
Theorem generate_route_report_empty_route_count (capacity : Z)
    (weather : Dict pyval) (clock : Clock) (t : nat) :
  optimize_delivery_route [] capacity weather clock t = Returned ([], t)
  /\ exists report,
       generate_route_report [] clock t = Returned (report, S (S t))
       /\ pharmacy_count report = (-2)%Z
       /\ pharmacy_count report <> 0%Z.
Proof.
  split; [reflexivity |].
  destruct (generate_route_report_count [] clock t) as (report & Hrun & Hcount).
  exists report. split; [exact Hrun |].
  cbn in Hcount. rewrite Hcount. split; [reflexivity | discriminate].
Qed.

(** ** Priority adjustment *)

Lemma py_min_le a b : py_min a b <= a /\ py_min a b <= b.
Proof.
  unfold py_min, Rltb. destruct (Rlt_dec b a); lra.
Qed.

(** What [_apply_emergency_priority] does establish: the output is the
    boosted copies, each with priority [min(10, priority * multiplier)], in
    descending order of that priority, equal priorities in input order. *)
Lemma apply_emergency_priority_sorted_stable pharmacies :
  Permutation (map boosted_pharmacy pharmacies) (_apply_emergency_priority pharmacies)
  /\ StronglySorted (key_ge priority) (_apply_emergency_priority pharmacies)
  /\ (forall k,
        filter (has_key priority k) (_apply_emergency_priority pharmacies)
        = filter (has_key priority k) (map boosted_pharmacy pharmacies))
  /\ Forall (fun q => priority q <= 10) (_apply_emergency_priority pharmacies).
Proof.
  unfold _apply_emergency_priority. repeat split.
  - apply py_sorted_desc_perm.
  - apply py_sorted_desc_sorted.
  - intros k. apply py_sorted_desc_stable.
  - eapply Permutation_Forall; [apply py_sorted_desc_perm |].
    apply Forall_forall. intros q Hq. apply in_map_iff in Hq.
    destruct Hq as (p & <- & _). cbn. apply py_min_le.
Qed.

Lemma py_round_27_5 : py_round (3 * 1.8) = 5%Z.
Proof.
  unfold py_round.
  assert (H : Int_part (3 * 1.8) = 5%Z) by (symmetry; apply Int_part_spec; lra).
  rewrite H. cbv zeta. rewrite Rltb_true by lra. reflexivity.
Qed.

(** C2, at [pharmacy_005] with priority 3 (multiplier 1.8): the adjusted
    priority is 5.4, where [min(10, round(3 * 1.8))] is 5. *)
Theorem apply_emergency_priority_not_rounded :
  priority pharmacy_005 = 3
  /\ _detect_emergency_situation pharmacy_005 = 1.8
  /\ _apply_emergency_priority [pharmacy_005] = [with_priority pharmacy_005 5.4]
  /\ py_min 10 (IZR (py_round (priority pharmacy_005
                               * _detect_emergency_situation pharmacy_005))) = 5
  /\ 5.4 <> 5.
Proof.
  split; [reflexivity |]. split; [reflexivity |]. split; [| split].
  - unfold _apply_emergency_priority. cbn [map py_sorted_desc fold_right insert_desc].
    f_equal. unfold boosted_pharmacy, with_priority.
    change (_detect_emergency_situation pharmacy_005) with 1.8.
    cbn [id name latitude longitude priority delivery_window pharmacy_005 pharmacy_at_depot].
    f_equal. unfold py_min. rewrite Rltb_true by lra. lra.
  - change (priority pharmacy_005) with 3.
    change (_detect_emergency_situation pharmacy_005) with 1.8.
    rewrite py_round_27_5. unfold py_min. rewrite Rltb_true by lra. reflexivity.
  - lra.
Qed.

(** ** Priority adjustment over the store *)

Lemma nth_error_alloc_old (h : heap) o a :
  (a < List.length h)%nat -> nth_error (h ++ [o]) a = nth_error h a.
Proof. intros Ha. apply nth_error_app1, Ha. Qed.

Lemma nth_error_alloc_new (h : heap) o :
  nth_error (h ++ [o]) (List.length h) = Some o.
Proof. rewrite nth_error_app2 by lia. now rewrite Nat.sub_diag. Qed.

Lemma heap_update_length h a o : List.length (heap_update h a o) = List.length h.
Proof.
  revert a. induction h as [| x rest IH]; intros [| a]; cbn; try reflexivity.
  now rewrite IH.
Qed.

Lemma nth_error_heap_update_other h a o a' :
  a' <> a -> nth_error (heap_update h a o) a' = nth_error h a'.
Proof.
  revert a a'. induction h as [| x rest IH]; intros [| a] [| a'] Hne; cbn;
    try reflexivity; try congruence.
  apply IH. congruence.
Qed.

Lemma nth_error_heap_update_same h a o :
  (a < List.length h)%nat -> nth_error (heap_update h a o) a = Some o.
Proof.
  revert a. induction h as [| x rest IH]; intros [| a] Ha; cbn in *;
    try lia; try reflexivity.
  apply IH. lia.
Qed.

Lemma read_pharmacy_lt h a p : read_pharmacy h a = Some p -> (a < List.length h)%nat.
Proof.
  unfold read_pharmacy. intros H. apply nth_error_Some.
  destruct (nth_error h a); congruence.
Qed.

(** The loop allocates the boosted copies above the old store, appends
    them to [emergency_boosted], and changes nothing else. *)
Lemma boost_all_spec eb :
  forall items ps h acc,
    read_list h eb = Some acc ->
    map (read_pharmacy h) items = map Some ps ->
    exists h' news,
      boost_all h items eb = Some h'
      /\ (List.length h <= List.length h')%nat
      /\ (forall a, (a < List.length h)%nat -> a <> eb ->
                    nth_error h' a = nth_error h a)
      /\ read_list h' eb = Some (acc ++ news)
      /\ Forall (fun b => (List.length h <= b)%nat) news
      /\ map (read_pharmacy h') news = map Some (map boosted_pharmacy ps).
Proof.
  induction items as [| a rest IH]; intros ps h acc Heb Hread.
  - destruct ps; [| discriminate]. exists h, []. cbn.
    rewrite app_nil_r. repeat split; auto.
  - destruct ps as [| p ps]; [discriminate |].
    cbn [map] in Hread. injection Hread as Ha Hrest.
    assert (Heb_lt : (eb < List.length h)%nat).
    { apply nth_error_Some. unfold read_list in Heb.
      destruct (nth_error h eb); congruence. }
    assert (Ha_ne : a <> eb).
    { intros ->. unfold read_pharmacy in Ha. unfold read_list in Heb.
      destruct (nth_error h eb) as [[|]|]; congruence. }
    cbn [boost_all]. rewrite Ha. cbn [alloc].
    set (h1 := h ++ [OPharmacy (boosted_pharmacy p)]).
    assert (Heb1 : read_list h1 eb = Some acc).
    { unfold read_list, h1. rewrite nth_error_alloc_old by exact Heb_lt. exact Heb. }
    unfold list_append. rewrite Heb1.
    set (h2 := heap_update h1 eb (OList (acc ++ [List.length h]))).
    assert (Hlen1 : List.length h1 = S (List.length h)).
    { unfold h1. rewrite length_app. cbn. lia. }
    assert (Hlen2 : List.length h2 = S (List.length h)).
    { unfold h2. rewrite heap_update_length. exact Hlen1. }
    assert (Hold : forall x, (x < List.length h)%nat -> x <> eb ->
                             nth_error h2 x = nth_error h x).
    { intros x Hx Hne. unfold h2. rewrite nth_error_heap_update_other by exact Hne.
      unfold h1. apply nth_error_alloc_old, Hx. }
    assert (Heb2 : read_list h2 eb = Some (acc ++ [List.length h])).
    { unfold read_list, h2. rewrite nth_error_heap_update_same by lia. reflexivity. }
    assert (Hrest2 : map (read_pharmacy h2) rest = map Some ps).
    { rewrite <- Hrest. apply map_ext_in. intros x Hx.
      assert (Hsome : exists q, read_pharmacy h x = Some q).
      { assert (Hin : In (read_pharmacy h x) (map (read_pharmacy h) rest))
          by (apply in_map, Hx).
        rewrite Hrest in Hin. apply in_map_iff in Hin.
        destruct Hin as (q & Hq & _). exists q. symmetry. exact Hq. }
      destruct Hsome as (q & Hq).
      assert (Hne : x <> eb).
      { intros ->. unfold read_pharmacy in Hq. unfold read_list in Heb.
        destruct (nth_error h eb) as [[|]|]; congruence. }
      unfold read_pharmacy. rewrite Hold; [reflexivity | | exact Hne].
      apply read_pharmacy_lt with q. exact Hq. }
    destruct (IH ps h2 (acc ++ [List.length h]) Heb2 Hrest2)
      as (h' & news & Hrun & Hlen' & Hframe & Hlist & Hfresh & Hvals).
    exists h', (List.length h :: news). repeat split.
    + exact Hrun.
    + lia.
    + intros x Hx Hne. rewrite Hframe by lia. apply Hold; assumption.
    + rewrite Hlist, <- app_assoc. reflexivity.
    + constructor; [lia |].
      eapply Forall_impl; [| exact Hfresh]. cbn. intros b Hb. lia.
    + cbn [map]. f_equal; [| exact Hvals].
      unfold read_pharmacy. rewrite Hframe by lia.
      unfold h2. rewrite nth_error_heap_update_other by lia.
      unfold h1. rewrite nth_error_alloc_new. reflexivity.
Qed.

Lemma read_all_spec h items ps :
  map (read_pharmacy h) items = map Some ps ->
  read_all h items = Some (combine items ps).
Proof.
  revert ps. induction items as [| a rest IH]; intros [| p ps] H; try discriminate.
  - reflexivity.
  - cbn [map] in H. injection H as Ha Hrest.
    cbn [read_all combine]. rewrite Ha, (IH ps Hrest). reflexivity.
Qed.

Lemma read_pharmacy_keyed h keyed :
  Forall (fun ap => read_pharmacy h (fst ap) = Some (snd ap)) keyed ->
  map (read_pharmacy h) (map fst keyed) = map Some (map snd keyed).
Proof.
  induction 1 as [| [a p] rest Hap _ IH]; cbn [map fst snd] in *.
  - reflexivity.
  - rewrite Hap, IH. reflexivity.
Qed.

Lemma combine_keyed h items ps :
  map (read_pharmacy h) items = map Some ps ->
  Forall (fun ap => read_pharmacy h (fst ap) = Some (snd ap)) (combine items ps)
  /\ map fst (combine items ps) = items
  /\ map snd (combine items ps) = ps.
Proof.
  revert ps. induction items as [| a rest IH]; intros [| p ps] H; try discriminate.
  - repeat split. constructor.
  - cbn [map] in H. injection H as Ha Hrest.
    destruct (IH ps Hrest) as (Hall & Hfst & Hsnd).
    cbn [combine map fst snd]. repeat split.
    + constructor; [exact Ha | exact Hall].
    + now rewrite Hfst.
    + now rewrite Hsnd.
Qed.

(** The adjusted list is the boosted copies of a rearrangement of the
    input. *)
Lemma apply_emergency_priority_rearranges ps :
  exists qs,
    Permutation ps qs
    /\ _apply_emergency_priority ps = map boosted_pharmacy qs.
Proof.
  exists (py_sorted_desc (fun p => priority (boosted_pharmacy p)) ps). split.
  - apply py_sorted_desc_perm.
  - unfold _apply_emergency_priority. symmetry.
    apply (py_sorted_desc_map boosted_pharmacy priority).
Qed.

(** C10: priority adjustment changes the priority only and works on fresh
    objects.  Every object of the store before the call, the input list and
    its elements among them, is the same after it; the result is a new list
    of new objects; and these are the boosted copies of the input points in
    some order, each with the id, name, latitude, longitude and delivery
    window of its input point. *)
Theorem apply_emergency_priority_frame (h : heap) (pharmacies : addr)
    (items : list addr) (ps : list Pharmacy) :
  read_list h pharmacies = Some items ->
  map (read_pharmacy h) items = map Some ps ->
  exists h' out outs qs,
    apply_emergency_priority_refs h pharmacies = Some (h', out)
    /\ (forall a, (a < List.length h)%nat -> nth_error h' a = nth_error h a)
    /\ (List.length h < out)%nat
    /\ read_list h' out = Some outs
    /\ Forall (fun b => (List.length h < b)%nat) outs
    /\ map (read_pharmacy h') outs = map Some (_apply_emergency_priority ps)
    /\ Permutation ps qs
    /\ _apply_emergency_priority ps = map boosted_pharmacy qs
    /\ Forall (fun p =>
                 id (boosted_pharmacy p) = id p
                 /\ name (boosted_pharmacy p) = name p
                 /\ latitude (boosted_pharmacy p) = latitude p
                 /\ longitude (boosted_pharmacy p) = longitude p
                 /\ delivery_window (boosted_pharmacy p) = delivery_window p) qs.
Proof.
  intros Hlist Hread.
  unfold apply_emergency_priority_refs. rewrite Hlist. cbn [alloc].
  set (eb := List.length h). set (h0 := h ++ [OList []]).
  assert (Hlen0 : List.length h0 = S eb).
  { unfold h0, eb. rewrite length_app. cbn. lia. }
  assert (Heb0 : read_list h0 eb = Some []).
  { unfold read_list, h0, eb. rewrite nth_error_alloc_new. reflexivity. }
  assert (Hread0 : map (read_pharmacy h0) items = map Some ps).
  { rewrite <- Hread. apply map_ext_in. intros x Hx.
    assert (Hin : In (read_pharmacy h x) (map (read_pharmacy h) items))
      by (apply in_map, Hx).
    rewrite Hread in Hin. apply in_map_iff in Hin. destruct Hin as (q & Hq & _).
    symmetry in Hq. apply read_pharmacy_lt in Hq.
    unfold read_pharmacy, h0. rewrite nth_error_alloc_old by exact Hq. reflexivity. }
  destruct (boost_all_spec eb items ps h0 [] Heb0 Hread0)
    as (h1 & news & Hrun & Hlen1 & Hframe & Hnews & Hfresh & Hvals).
  rewrite Hrun. cbn [app] in Hnews.
  unfold sorted_refs. rewrite Hnews.
  rewrite (read_all_spec h1 news (map boosted_pharmacy ps) Hvals). cbn [alloc].
  destruct (combine_keyed h1 news (map boosted_pharmacy ps) Hvals)
    as (Hkeyed & Hfst & Hsnd).
  set (keyed := combine news (map boosted_pharmacy ps)) in *.
  set (sorted_ := py_sorted_desc (fun ap => priority (snd ap)) keyed).
  assert (Hperm : Permutation keyed sorted_) by apply py_sorted_desc_perm.
  destruct (apply_emergency_priority_rearranges ps) as (qs & Hqs & Hout).
  exists (h1 ++ [OList (map fst sorted_)]), (List.length h1), (map fst sorted_), qs.
  repeat split.
  - intros a Ha. rewrite nth_error_alloc_old by lia.
    rewrite Hframe by (fold eb in Ha; lia).
    unfold h0. apply nth_error_alloc_old, Ha.
  - fold eb. lia.
  - unfold read_list. rewrite nth_error_alloc_new. reflexivity.
  - eapply Permutation_Forall; [apply Permutation_map, Hperm |].
    rewrite Hfst. eapply Forall_impl; [| exact Hfresh].
    cbn. intros b Hb. fold eb. lia.
  - assert (Hsorted : Forall (fun ap => read_pharmacy (h1 ++ [OList (map fst sorted_)])
                                          (fst ap) = Some (snd ap)) sorted_).
    { eapply Permutation_Forall; [exact Hperm |].
      eapply Forall_impl; [| exact Hkeyed]. cbn. intros [b q] Hb. cbn [fst snd] in *.
      pose proof (read_pharmacy_lt _ _ _ Hb) as Hlt.
      unfold read_pharmacy in *. rewrite nth_error_alloc_old by exact Hlt. exact Hb. }
    rewrite (read_pharmacy_keyed _ _ Hsorted). f_equal.
    unfold sorted_. rewrite (py_sorted_desc_map snd priority keyed), Hsnd.
    reflexivity.
  - exact Hqs.
  - exact Hout.
  - apply Forall_forall. intros p _. apply boosted_pharmacy_frame.
Qed.

Lemma apply_emergency_priority_frame_witness :
  read_list heap_sample 2%nat = Some [0%nat; 1%nat]
  /\ map (read_pharmacy heap_sample) [0%nat; 1%nat]
     = map Some [pharmacy_005; pharmacy_002]
  /\ exists h' out outs qs,
       apply_emergency_priority_refs heap_sample 2%nat = Some (h', out)
       /\ (forall a, (a < List.length heap_sample)%nat ->
                     nth_error h' a = nth_error heap_sample a)
       /\ (List.length heap_sample < out)%nat
       /\ read_list h' out = Some outs
       /\ Forall (fun b => (List.length heap_sample < b)%nat) outs
       /\ map (read_pharmacy h') outs
          = map Some (_apply_emergency_priority [pharmacy_005; pharmacy_002])
       /\ Permutation [pharmacy_005; pharmacy_002] qs
       /\ _apply_emergency_priority [pharmacy_005; pharmacy_002]
          = map boosted_pharmacy qs
       /\ Forall (fun p =>
                    id (boosted_pharmacy p) = id p
                    /\ name (boosted_pharmacy p) = name p
                    /\ latitude (boosted_pharmacy p) = latitude p
                    /\ longitude (boosted_pharmacy p) = longitude p
                    /\ delivery_window (boosted_pharmacy p) = delivery_window p) qs.
Proof.
  split; [reflexivity |]. split; [reflexivity |].
  exact (apply_emergency_priority_frame heap_sample 2%nat [0%nat; 1%nat]
           [pharmacy_005; pharmacy_002] eq_refl eq_refl).
Defined.

(** * Further properties of the optimizer *)

(** ** Emergency multiplier and adjusted priorities *)

Lemma detect_emergency_situation_value p :
  _detect_emergency_situation p
  = if String.eqb "pharmacy_001" (id p) then 2.5
    else if String.eqb "pharmacy_005" (id p) then 1.8
    else 1.0.
Proof.
  unfold _detect_emergency_situation, dict_get_default, emergency_zones.
  cbn [dict_get].
  destruct (String.eqb "pharmacy_001" (id p)); [reflexivity |].
  destruct (String.eqb "pharmacy_005" (id p)); reflexivity.
Qed.

Lemma detect_emergency_situation_range p :
  1 <= _detect_emergency_situation p <= 2.5.
Proof.
  rewrite detect_emergency_situation_value.
  destruct (String.eqb "pharmacy_001" (id p)); [lra |].
  destruct (String.eqb "pharmacy_005" (id p)); lra.
Qed.

(** X2: the emergency multiplier is 2.5 for [pharmacy_001], 1.8 for
    [pharmacy_005] and the default 1.0 for every other id; so it never
    lowers a priority and never more than multiplies it by 2.5. *)
Theorem detect_emergency_situation_default (p : Pharmacy) :
  _detect_emergency_situation p
  = (if string_dec (id p) "pharmacy_001" then 2.5
     else if string_dec (id p) "pharmacy_005" then 1.8
     else 1.0)
  /\ 1 <= _detect_emergency_situation p <= 2.5.
Proof.
  split; [| apply detect_emergency_situation_range].
  rewrite detect_emergency_situation_value.
  destruct (String.eqb_spec "pharmacy_001" (id p)) as [H1 | H1];
    destruct (string_dec (id p) "pharmacy_001") as [E1 | E1];
    try congruence; try reflexivity.
  destruct (String.eqb_spec "pharmacy_005" (id p)) as [H5 | H5];
    destruct (string_dec (id p) "pharmacy_005") as [E5 | E5];
    try congruence; reflexivity.
Qed.

Lemma boosted_pharmacy_priority_range p :
  1 <= priority p <= 10 ->
  priority p <= priority (boosted_pharmacy p) <= 10
  /\ 1 <= priority (boosted_pharmacy p).
Proof.
  intros Hp. cbn [boosted_pharmacy priority].
  pose proof (detect_emergency_situation_range p) as Hm.
  assert (Hprod : priority p <= priority p * _detect_emergency_situation p) by nra.
  unfold py_min, Rltb.
  destruct (Rlt_dec (priority p * _detect_emergency_situation p) 10); lra.
Qed.

(** X3: priorities within 1..10 stay within 1..10 under adjustment, and no
    point's priority is lowered. *)
Theorem apply_emergency_priority_keeps_range (pharmacies : list Pharmacy) :
  Forall (fun p => 1 <= priority p <= 10) pharmacies ->
  Forall (fun q => 1 <= priority q <= 10) (_apply_emergency_priority pharmacies)
  /\ Forall (fun p => priority p <= priority (boosted_pharmacy p)) pharmacies.
Proof.
  intros Hin. split.
  - unfold _apply_emergency_priority.
    eapply Permutation_Forall; [apply py_sorted_desc_perm |].
    apply Forall_forall. intros q Hq. apply in_map_iff in Hq.
    destruct Hq as (p & <- & Hp).
    rewrite Forall_forall in Hin.
    pose proof (boosted_pharmacy_priority_range p (Hin p Hp)). lra.
  - eapply Forall_impl; [| exact Hin]. cbv beta. intros p Hp.
    apply boosted_pharmacy_priority_range, Hp.
Qed.

Lemma apply_emergency_priority_keeps_range_witness :
  Forall (fun p => 1 <= priority p <= 10) [pharmacy_005; pharmacy_002]
  /\ Forall (fun q => 1 <= priority q <= 10)
       (_apply_emergency_priority [pharmacy_005; pharmacy_002])
  /\ Forall (fun p => priority p <= priority (boosted_pharmacy p))
       [pharmacy_005; pharmacy_002].
Proof.
  assert (H : Forall (fun p => 1 <= priority p <= 10) [pharmacy_005; pharmacy_002]).
  { repeat constructor; cbn; lra. }
  split; [exact H |].
  exact (apply_emergency_priority_keeps_range [pharmacy_005; pharmacy_002] H).
Defined.

(** X4: the adjusted list has the length of the input, holds exactly the
    boosted copies, is in descending order of adjusted priority, and keeps
    points of equal adjusted priority in their input order. *)
Theorem apply_emergency_priority_descending_stable (pharmacies : list Pharmacy) :
  List.length (_apply_emergency_priority pharmacies) = List.length pharmacies
  /\ Permutation (map boosted_pharmacy pharmacies) (_apply_emergency_priority pharmacies)
  /\ StronglySorted (fun a b => priority b <= priority a)
       (_apply_emergency_priority pharmacies)
  /\ forall k,
       filter (has_key priority k) (_apply_emergency_priority pharmacies)
       = map boosted_pharmacy
           (filter (fun p => has_key priority k (boosted_pharmacy p)) pharmacies).
Proof.
  unfold _apply_emergency_priority. repeat split.
  - rewrite py_sorted_desc_length, length_map. reflexivity.
  - apply py_sorted_desc_perm.
  - apply (py_sorted_desc_sorted priority).
  - intros k. rewrite py_sorted_desc_stable.
    induction pharmacies as [| p ps IH]; [reflexivity |].
    cbn [map filter]. destruct (has_key priority k (boosted_pharmacy p)).
    + cbn [map]. rewrite IH. reflexivity.
    + exact IH.
Qed.

(** ** The terms of the score *)

Lemma weather_impact_value weather p :
  _calculate_weather_impact weather p
  = 0.1
    + (if Rltb 52.5 (latitude p) then 0.3 else 0)
    + (if condition_is weather "snow" then 0.4
       else if condition_is weather "rain" then 0.2
       else 0).
Proof.
  unfold _calculate_weather_impact. cbv zeta. unfold py_min.
  destruct (Rltb 52.5 (latitude p));
    destruct (condition_is weather "snow");
    try destruct (condition_is weather "rain");
    rewrite Rltb_false by lra; lra.
Qed.

Lemma weather_impact_range weather p :
  0.1 <= _calculate_weather_impact weather p <= 0.8.
Proof.
  rewrite weather_impact_value.
  destruct (Rltb 52.5 (latitude p));
    destruct (condition_is weather "snow");
    try destruct (condition_is weather "rain"); lra.
Qed.

(** X5: the weather impact is 0.1, plus 0.3 north of latitude 52.5, plus
    0.4 under snow or 0.2 under rain; any other condition, or none, adds
    nothing.  It lies between 0.1 and 0.8, so the cap at 1.0 never binds. *)
Theorem calculate_weather_impact_terms (weather : Dict pyval) (p : Pharmacy) :
  _calculate_weather_impact weather p
  = 0.1
    + (if Rltb 52.5 (latitude p) then 0.3 else 0)
    + (match dict_get weather "condition" with
       | Some (VStr c) =>
           if String.eqb c "snow" then 0.4
           else if String.eqb c "rain" then 0.2
           else 0
       | _ => 0
       end)
  /\ 0.1 <= _calculate_weather_impact weather p <= 0.8.
Proof.
  split; [| apply weather_impact_range].
  rewrite weather_impact_value. f_equal.
  unfold condition_is.
  destruct (dict_get weather "condition") as [[c | x] |]; reflexivity.
Qed.

Lemma urgency_at_values now_ p :
  urgency_at now_ p = 5 \/ urgency_at now_ p = 15 \/ urgency_at now_ p = 30.
Proof.
  rewrite urgency_at_cases.
  destruct (_ <=? _)%Z; [auto |].
  destruct (_ <=? _)%Z; auto.
Qed.


Lemma urgency_at_mono now1 now2 p :
  (now1 <= now2)%Z -> urgency_at now1 p <= urgency_at now2 p.
Proof.
  intros Hle. rewrite !urgency_at_cases.
  set (ws := fst (delivery_window p)).
  destruct (Z.leb_spec (ws - now1) (timedelta_hours 2)) as [A1 | A1];
    destruct (Z.leb_spec (ws - now2) (timedelta_hours 2)) as [A2 | A2];
    try lra; try lia;
    destruct (Z.leb_spec (ws - now1) (timedelta_hours 4)) as [B1 | B1];
    destruct (Z.leb_spec (ws - now2) (timedelta_hours 4)) as [B2 | B2];
    try lra; lia.
Qed.

(** X6: the time urgency is 5, 15 or 30, it is 30 once the delivery window
    has opened, and a later clock reading never lowers it. *)
Theorem calculate_time_urgency_grows_with_clock (p : Pharmacy)
    (clock1 clock2 : Clock) (t1 t2 : nat) :
  (clock1 t1 <= clock2 t2)%Z ->
  exists u1 u2,
    _calculate_time_urgency p clock1 t1 = Returned (u1, S t1)
    /\ _calculate_time_urgency p clock2 t2 = Returned (u2, S t2)
    /\ u1 <= u2
    /\ (u1 = 5 \/ u1 = 15 \/ u1 = 30)
    /\ (if (fst (delivery_window p) <=? clock1 t1)%Z then u1 = 30 else True).
Proof.
  intros Hle.
  exists (urgency_at (clock1 t1) p), (urgency_at (clock2 t2) p).
  split; [reflexivity |]. split; [reflexivity |].
  split; [apply urgency_at_mono, Hle |].
  split; [apply urgency_at_values |].
  destruct (Z.leb_spec (fst (delivery_window p)) (clock1 t1)) as [Hopen | _]; [| exact I].
  rewrite urgency_at_cases.
  destruct (Z.leb_spec (fst (delivery_window p) - clock1 t1) (timedelta_hours 2))
    as [_ | Hgt]; [reflexivity |].
  unfold timedelta_hours in Hgt. lia.
Qed.

Lemma calculate_time_urgency_grows_with_clock_witness :
  (clock_frozen 0%nat <= clock_jump 2%nat)%Z
  /\ exists u1 u2,
       _calculate_time_urgency pharmacy_003 clock_frozen 0%nat = Returned (u1, 1%nat)
       /\ _calculate_time_urgency pharmacy_003 clock_jump 2%nat = Returned (u2, 3%nat)
       /\ u1 <= u2
       /\ (u1 = 5 \/ u1 = 15 \/ u1 = 30)
       /\ (if (fst (delivery_window pharmacy_003) <=? clock_frozen 0%nat)%Z
           then u1 = 30 else True).
Proof.
  assert (H : (clock_frozen 0%nat <= clock_jump 2%nat)%Z) by (vm_compute; discriminate).
  split; [exact H |].
  exact (calculate_time_urgency_grows_with_clock pharmacy_003 clock_frozen clock_jump
           0%nat 2%nat H).
Defined.



(** ** What the optimizer reads of its arguments *)

Lemma condition_is_same w1 w2 s :
  same_condition w1 w2 -> condition_is w1 s = condition_is w2 s.
Proof. intros H. unfold condition_is. rewrite H. reflexivity. Qed.

Lemma score_same_condition w1 w2 current target clock t :
  same_condition w1 w2 ->
  _calculate_pharmacy_score current target w1 clock t
  = _calculate_pharmacy_score current target w2 clock t.
Proof.
  intros H. rewrite !calculate_pharmacy_score_eq.
  unfold score_at, _calculate_weather_impact.
  rewrite !(condition_is_same w1 w2) by exact H. reflexivity.
Qed.

Lemma select_loop_same_condition w1 w2 current clock candidates :
  same_condition w1 w2 ->
  forall best_score best_pharmacy t,
    select_loop current candidates w1 best_score best_pharmacy clock t
    = select_loop current candidates w2 best_score best_pharmacy clock t.
Proof.
  intros H. induction candidates as [| c rest IH]; intros bs bp t.
  - reflexivity.
  - cbn [select_loop]. unfold bind.
    rewrite (score_same_condition w1 w2) by exact H.
    destruct (_calculate_pharmacy_score current c w2 clock t) as [[score t1] | e |];
      try reflexivity.
    destruct (score_gt score bs); apply IH.
Qed.

Lemma bind_congr {A B : Type} (m1 m2 : M A) (k1 k2 : A -> M B) clock t :
  m1 clock t = m2 clock t ->
  (forall a t', k1 a clock t' = k2 a clock t') ->
  bind m1 k1 clock t = bind m2 k2 clock t.
Proof.
  intros Hm Hk. unfold bind. rewrite Hm.
  destruct (m2 clock t) as [[a t'] | e |]; [apply Hk | reflexivity | reflexivity].
Qed.

Lemma greedy_loop_same_condition w1 w2 clock fuel :
  same_condition w1 w2 ->
  forall route unvisited t,
    greedy_loop fuel route unvisited w1 clock t
    = greedy_loop fuel route unvisited w2 clock t.
Proof.
  intros H. induction fuel as [| fuel IH]; intros route [| u us] t; try reflexivity.
  cbn [greedy_loop].
  apply bind_congr; [reflexivity |]. intros cur t1.
  apply bind_congr; [apply (select_loop_same_condition w1 w2), H |].
  intros [next_ |] t2; [| reflexivity].
  apply bind_congr; [reflexivity |]. intros rest t3. apply IH.
Qed.

(** X11: of its arguments besides the points, the optimizer reads only the
    entry ['condition'] of the weather: the vehicle capacity, the
    temperature, the wind speed and any other entry have no effect on the
    route. *)
Theorem optimize_delivery_route_reads_condition_only (pharmacies : list Pharmacy)
    (capacity1 capacity2 : Z) (weather1 weather2 : Dict pyval)
    (clock : Clock) (t : nat) :
  same_condition weather1 weather2 ->
  optimize_delivery_route pharmacies capacity1 weather1 clock t
  = optimize_delivery_route pharmacies capacity2 weather2 clock t.
Proof.
  intros H. unfold optimize_delivery_route.
  destruct pharmacies as [| p ps]; [reflexivity |].
  apply bind_congr; [reflexivity |]. intros now0 t0.
  apply bind_congr; [reflexivity |]. intros now1 t1.
  apply bind_congr; [apply (greedy_loop_same_condition weather1 weather2), H |].
  reflexivity.
Qed.

Lemma optimize_delivery_route_reads_condition_only_witness :
  same_condition weather_clear weather_clear_only
  /\ optimize_delivery_route [pharmacy_002; pharmacy_003] 1000 weather_clear
       clock_jump 0%nat
     = optimize_delivery_route [pharmacy_002; pharmacy_003] 0 weather_clear_only
         clock_jump 0%nat.
Proof.
  assert (H : same_condition weather_clear weather_clear_only) by reflexivity.
  split; [exact H |].
  exact (optimize_delivery_route_reads_condition_only [pharmacy_002; pharmacy_003]
           1000 0 weather_clear weather_clear_only clock_jump 0%nat H).
Defined.

(** ** The report on short routes *)

Lemma Int_part_0 : Int_part 0 = 0%Z.
Proof. symmetry. apply Int_part_spec. lra. Qed.

Lemma py_round2_0 : py_round2 0 = 0.
Proof.
  unfold py_round2, py_round. replace (0 * 100) with 0 by lra.
  rewrite Int_part_0. cbv zeta. rewrite Rltb_true by lra. lra.
Qed.

Lemma py_int_0 : py_int 0 = 0%Z.
Proof. unfold py_int. rewrite Rleb_true by lra. apply Int_part_0. Qed.

(** X14: a route of fewer than two points has no legs: the report has no
    segment and zero distance, duration and fuel, and its count of
    pharmacies is negative. *)
Theorem generate_route_report_short_route (route : list Pharmacy)
    (clock : Clock) (t : nat) :
  (List.length route <= 1)%nat ->
  exists report,
    generate_route_report route clock t = Returned (report, S (S t))
    /\ segments report = []
    /\ total_distance_km report = 0
    /\ total_duration_min report = 0%Z
    /\ estimated_fuel_consumption report = 0
    /\ (pharmacy_count report < 0)%Z.
Proof.
  intros Hlen.
  assert (Hloop : report_loop route 0 0 [] = (0, 0, [])).
  { destruct route as [| a [| b rest]]; try reflexivity. cbn in Hlen. lia. }
  unfold generate_route_report. rewrite Hloop.
  eexists. split; [reflexivity |].
  cbn [segments total_distance_km total_duration_min estimated_fuel_consumption
       pharmacy_count].
  split; [reflexivity |]. split; [apply py_round2_0 |].
  split; [apply py_int_0 |].
  split; [replace (0 * 0.12) with 0 by lra; apply py_round2_0 |].
  lia.
Qed.

Lemma generate_route_report_short_route_witness :
  (List.length [pharmacy_002] <= 1)%nat
  /\ exists report,
       generate_route_report [pharmacy_002] clock_frozen 0%nat
       = Returned (report, 2%nat)
       /\ segments report = []
       /\ total_distance_km report = 0
       /\ total_duration_min report = 0%Z
       /\ estimated_fuel_consumption report = 0
       /\ (pharmacy_count report < 0)%Z.
Proof.
  assert (H : (List.length [pharmacy_002] <= 1)%nat) by (cbn; lia).
  split; [exact H |].
  exact (generate_route_report_short_route [pharmacy_002] clock_frozen 0%nat H).
Defined.

(** * Properties of the optimizer over binary64 floats *)

(** ** Scoring returns a float or raises an arithmetic error *)





(** ** One selection pass *)






(** ** The greedy loop *)




(** ** Priority adjustment *)














(** ** Scores that are never selected *)










(** ** The whole call *)







